(** * Card checker backend: Luhn engine, card parser, generator, rate limiter

    A shallow embedding of [src/index.py] (a Flask service) and the proofs of
    its specified properties.

    Modelling conventions.
    - A Python [str] is a [list ascii] ([pystr]): a character is a code
      point below 256, and the primitives follow Python on all of them
      (white space, [isdigit], [lower] and [int] on the Latin-1 range).
      Literals are written [lit "..."].
    - [int] raises on more than 4300 digits, the limit of CPython 3.11 and
      of the patched earlier releases.
    - A Python [int] is a [Z]; lengths and indices are [nat].
    - [time.time()] is the argument [now] of the code that reads the clock,
      an exact number of seconds ([Z]); [datetime.now().year] is the argument
      [current_year].
    - [random.randint] draws from an explicit source [rng]; every theorem
      quantifies over all sources.
    - The module-level [request_counts] dictionary is a [gmap] that the
      handlers take and return.
    - An exception that the code does not catch is the result [None] of the
      function that raises it; a handler turns it into [Resp500]. *)

From stdpp Require Import gmap strings list.
From Stdlib Require Import ZArith Ascii DecimalString Lia.

Local Open Scope Z_scope.

Abbreviation pystr := (list ascii).

(** A string literal as a Python [str]. *)
Definition lit (s : string) : pystr := String.list_ascii_of_string s.

(** ** Python string primitives used by the service *)

Module Py.

Definition code (c : ascii) : nat := nat_of_ascii c.

(** ['0'..'9']. *)
Definition is_digit (c : ascii) : bool :=
  (48 <=? code c)%nat && (code c <=? 57)%nat.

Definition digit_val (c : ascii) : Z := Z.of_nat (code c) - 48.

(** The characters for which [str.isspace] holds, which [str.strip]
    removes: TAB, LF, VT, FF, CR, FS, GS, RS, US, the space, NEL (U+0085)
    and the no-break space (U+00A0). *)
Definition is_space (c : ascii) : bool :=
  ((9 <=? code c)%nat && (code c <=? 13)%nat)
  || ((28 <=? code c)%nat && (code c <=? 32)%nat)
  || (code c =? 133)%nat || (code c =? 160)%nat.

(** The white space that [int] skips at both ends: as [str.strip], but
    not FS, GS, RS and US. *)
Definition is_int_space (c : ascii) : bool :=
  ((9 <=? code c)%nat && (code c <=? 13)%nat)
  || (code c =? 32)%nat || (code c =? 133)%nat || (code c =? 160)%nat.

Fixpoint lstrip (s : pystr) : pystr :=
  match s with
  | [] => []
  | c :: r => if is_space c then lstrip r else s
  end.

Definition rstrip (s : pystr) : pystr := rev (lstrip (rev s)).

(** [s.strip()] *)
Definition strip (s : pystr) : pystr := rstrip (lstrip s).

(** [s.split(sep)] for a one-character separator: never the empty list. *)
Fixpoint split (sep : ascii) (s : pystr) : list pystr :=
  match s with
  | [] => [[]]
  | c :: r =>
      if Ascii.eqb c sep then [] :: split sep r
      else match split sep r with
           | [] => [[c]]
           | w :: ws => (c :: w) :: ws
           end
  end.

(** [re.sub(r'\D', '', s)]: drop every character that is not a digit. *)
Definition re_sub_nondigit (s : pystr) : pystr := List.filter is_digit s.

(** [s.zfill(width)]: zeros go after a leading sign. *)
Definition zfill (width : nat) (s : pystr) : pystr :=
  if (width <=? length s)%nat then s
  else
    let fill := repeat "0"%char (width - length s) in
    match s with
    | c :: r =>
        if Ascii.eqb c "+" || Ascii.eqb c "-" then c :: fill ++ r
        else fill ++ s
    | [] => fill
    end.

(** The characters for which [str.isdigit] holds: ['0'..'9'] and the
    superscripts two, three and one (U+00B2, U+00B3, U+00B9). *)
Definition isdigit_char (c : ascii) : bool :=
  is_digit c || (code c =? 178)%nat || (code c =? 179)%nat || (code c =? 185)%nat.

(** [s.isdigit()]: false on the empty string. *)
Definition isdigit (s : pystr) : bool :=
  match s with
  | [] => false
  | _ => forallb isdigit_char s
  end.

(** [c.lower()]: the capitals ['A'..'Z'], and U+00C0..U+00DE but for the
    multiplication sign U+00D7. *)
Definition lower_char (c : ascii) : ascii :=
  if ((65 <=? code c)%nat && (code c <=? 90)%nat)
     || ((192 <=? code c)%nat && (code c <=? 222)%nat && negb (code c =? 215)%nat)
  then ascii_of_nat (code c + 32) else c.

(** [s.lower()] *)
Definition lower (s : pystr) : pystr := map lower_char s.

Definition eqb (a b : pystr) : bool := bool_decide (a = b).

(** The digits of [int(s)] after the sign: groups of digits separated by
    single underscores. [prev] says that the previous character was a
    digit. *)
Fixpoint int_digits (acc : Z) (prev : bool) (s : pystr) : option Z :=
  match s with
  | [] => if prev then Some acc else None
  | c :: r =>
      if is_digit c then int_digits (10 * acc + digit_val c) true r
      else if Ascii.eqb c "_" && prev then int_digits acc false r
      else None
  end.

Fixpoint int_lstrip (s : pystr) : pystr :=
  match s with
  | [] => []
  | c :: r => if is_int_space c then int_lstrip r else s
  end.

(** The string that [int] reads, without the white space at its ends. *)
Definition int_strip (s : pystr) : pystr :=
  rev (int_lstrip (rev (int_lstrip s))).

(** [sys.get_int_max_str_digits()] *)
Definition max_str_digits : Z := 4300.

(** [int(s)] in base 10; [None] is [ValueError], which is also raised on
    more than [max_str_digits] digits. *)
Definition int (s : pystr) : option Z :=
  let t := int_strip s in
  if max_str_digits <? Z.of_nat (length (re_sub_nondigit t)) then None
  else
    match t with
    | [] => None
    | c :: r =>
        if Ascii.eqb c "-" then Z.opp <$> int_digits 0 false r
        else if Ascii.eqb c "+" then int_digits 0 false r
        else int_digits 0 false (c :: r)
    end.

(** [str(n)] for an integer. *)
Definition str (n : Z) : pystr := lit (NilZero.string_of_int (Z.to_int n)).

End Py.

(** ** Luhn engine *)

(** The body of the [for] loop of [luhn_check], from index [i] with the
    running [total]; [None] when [int(digit)] raises. *)
Fixpoint luhn_loop (parity : nat) (i : nat) (total : Z) (s : pystr) : option Z :=
  match s with
  | [] => Some total
  | digit :: rest =>
      match Py.int [digit] with
      | None => None
      | Some d =>
          let d := if (i mod 2 =? parity)%nat
                   then (let d := d * 2 in if 9 <? d then d - 9 else d)
                   else d in
          luhn_loop parity (S i) (total + d) rest
      end
  end.

(** The [try] block of [luhn_check]. *)
Definition luhn_try (card_number : pystr) : option bool :=
  let parity := (length card_number mod 2)%nat in
  match luhn_loop parity 0 0 card_number with
  | None => None
  | Some total => Some (total mod 10 =? 0)
  end.

(** [luhn_check]: the bare [except] turns every exception into [False]. *)
Definition luhn_check (card_number : pystr) : bool :=
  match luhn_try card_number with
  | Some b => b
  | None => false
  end.

(** ** Rate limiter *)

Definition RATE_LIMIT : nat := 100.
Definition RATE_WINDOW : Z := 3600.

(** [check_rate_limit(ip)], with the clock reading [now] and the dictionary
    [request_counts] (a [defaultdict(list)]: a missing key reads as [[]]). *)
Definition check_rate_limit (ip : string) (now : Z)
    (request_counts : gmap string (list Z)) : bool * gmap string (list Z) :=
  let kept := filter (λ req_time, now - req_time < RATE_WINDOW)
                     (default [] (request_counts !! ip)) in
  let request_counts := <[ip := kept]> request_counts in
  if (RATE_LIMIT <=? length kept)%nat then (false, request_counts)
  else (true, <[ip := kept ++ [now]]> request_counts).

(** ** Card string parser *)

Record card_record := CardRecord {
  card_number : pystr;
  month : pystr;
  year : pystr;
  cvv : pystr;
  original : pystr
}.

(** [validate_card_format(card_data)]: the pair [(record, error)] of the
    source, one side of which is [None]. *)
Definition validate_card_format (current_year : Z) (card_data : pystr)
    : option card_record * option string :=
  let parts := map Py.strip (Py.split "|" card_data) in
  if (length parts <? 4)%nat then (None, Some "Invalid format"%string)
  else
    let card_number := Py.re_sub_nondigit (nth 0 parts []) in
    let month := Py.zfill 2 (nth 1 parts []) in
    let year := nth 2 parts [] in
    let cvv := nth 3 parts [] in
    if (length card_number <? 13)%nat || (19 <? length card_number)%nat
    then (None, Some "Invalid card number length"%string)
    else
      match Py.int month with
      | None => (None, Some "Invalid month format"%string)
      | Some month_int =>
          if (month_int <? 1) || (12 <? month_int)
          then (None, Some "Invalid month"%string)
          else
            let year := if (length year =? 2)%nat then lit "20" ++ year else year in
            match Py.int year with
            | None => (None, Some "Invalid year format"%string)
            | Some year_int =>
                if (year_int <? current_year) || negb (length year =? 4)%nat
                then (None, Some "Invalid or expired year"%string)
                else if (length cvv <? 3)%nat || (4 <? length cvv)%nat
                        || negb (Py.isdigit cvv)
                then (None, Some "Invalid CVV"%string)
                else (Some (CardRecord card_number month year cvv card_data), None)
            end
      end.

(** ** HTTP handlers *)

Inductive card_status := live | dead | unknown.

Record validation_result := ValidationResult {
  status : card_status;
  message : string;
  result_original : pystr
}.

(** What a handler returns: an error body with its HTTP code, one of the
    three 200 bodies, or an exception that nothing catches. *)
Inductive response :=
| RespError (http_code : Z) (error : string)
| RespResult (result : validation_result)
| RespResults (results : list validation_result)
| RespCards (cards : list pystr)
| Resp500.

Definition rate_limited : response :=
  RespError 429 "Rate limit exceeded. Please try again later.".

(** Truth value of the [error] component: [None] and [""] are false. *)
Definition truthy (error : option string) : bool :=
  match error with
  | None => false
  | Some m => negb (String.eqb m "")
  end.

(** The result dictionary built after a successful format check. *)
Definition luhn_result (is_valid : bool) (card_data : pystr) : validation_result :=
  ValidationResult (if is_valid then live else dead)
                   (if is_valid then "Valid card" else "Invalid card")
                   card_data.

(** [validate_card()], the handler of [POST /api/validate]. *)
Definition validate_card (current_year : Z) (ip : string) (now : Z)
    (card_data : pystr) (request_counts : gmap string (list Z))
    : response * gmap string (list Z) :=
  let '(admitted, request_counts) := check_rate_limit ip now request_counts in
  if negb admitted then (rate_limited, request_counts)
  else
    match card_data with
    | [] => (RespError 400 "No card data provided", request_counts)
    | _ =>
        let '(validated, error) := validate_card_format current_year card_data in
        if truthy error
        then (RespResult (ValidationResult unknown (default ""%string error) card_data),
              request_counts)
        else
          match validated with
          | None => (Resp500, request_counts)
          | Some validated =>
              let is_valid := luhn_check (card_number validated) in
              (RespResult (luhn_result is_valid card_data), request_counts)
          end
    end.

(** The [for card_data in cards] loop of [validate_batch], appending to
    [results]; [None] when an iteration raises. *)
Fixpoint batch_loop (current_year : Z) (cards : list pystr)
    (results : list validation_result) : option (list validation_result) :=
  match cards with
  | [] => Some results
  | card_data :: cards =>
      let '(validated, error) := validate_card_format current_year card_data in
      if truthy error
      then batch_loop current_year cards
             (results ++ [ValidationResult unknown (default ""%string error) card_data])
      else
        match validated with
        | None => None
        | Some validated =>
            let is_valid := luhn_check (card_number validated) in
            batch_loop current_year cards (results ++ [luhn_result is_valid card_data])
        end
  end.

(** [validate_batch()], the handler of [POST /api/validate-batch]. *)
Definition validate_batch (current_year : Z) (ip : string) (now : Z)
    (cards : list pystr) (request_counts : gmap string (list Z))
    : response * gmap string (list Z) :=
  let '(admitted, request_counts) := check_rate_limit ip now request_counts in
  if negb admitted then (rate_limited, request_counts)
  else
    match cards with
    | [] => (RespError 400 "Invalid batch size (max 100)", request_counts)
    | _ =>
        if (100 <? length cards)%nat
        then (RespError 400 "Invalid batch size (max 100)", request_counts)
        else
          match batch_loop current_year cards [] with
          | None => (Resp500, request_counts)
          | Some results => (RespResults results, request_counts)
          end
    end.

(** ** Card generator *)

(** The source of randomness: the stream of raw draws still to come. *)
Definition rng := nat → Z.

(** A computation that draws random numbers and may raise. *)
Definition Gen (A : Type) : Type := rng → option (A * rng).

#[global] Instance Gen_ret : MRet Gen := λ A (x : A) (g : rng), Some (x, g).

#[global] Instance Gen_bind : MBind Gen := λ A B (f : A → Gen B) (m : Gen A) (g : rng),
  match m g with
  | None => None
  | Some (x, g') => f x g'
  end.

(** An uncaught exception or its absence. *)
Definition lift_exn {A} (o : option A) : Gen A := λ g,
  match o with
  | None => None
  | Some x => Some (x, g)
  end.

(** [random.randint(a, b)]: some integer of [[a, b]], chosen by the next
    draw. *)
Definition randint (a b : Z) : Gen Z := λ g,
  Some (a + g 0%nat mod (b - a + 1), λ n, g (S n)).

(** First loop of [generate_cards]: every [x] or [X] of the pattern becomes
    a random digit. *)
Fixpoint replace_x (bin_pattern : pystr) (card_num : pystr) : Gen pystr :=
  match bin_pattern with
  | [] => mret card_num
  | char :: rest =>
      if Py.eqb (Py.lower [char]) (lit "x")
      then d ← randint 0 9; replace_x rest (card_num ++ Py.str d)
      else replace_x rest (card_num ++ [char])
  end.

(** [while len(card_num) < 15: card_num += str(random.randint(0, 9))], with
    a bound [fuel] on the number of iterations. *)
Fixpoint fill_loop (fuel : nat) (card_num : pystr) : Gen pystr :=
  if (length card_num <? 15)%nat
  then match fuel with
       | O => λ _, None
       | S fuel => d ← randint 0 9; fill_loop fuel (card_num ++ Py.str d)
       end
  else mret card_num.

(** The check-digit loop of [generate_cards]: positions 0, 2, 4, ... from
    the left are doubled. *)
Fixpoint check_digit_loop (i : nat) (total : Z) (card_num : pystr) : option Z :=
  match card_num with
  | [] => Some total
  | digit :: rest =>
      match Py.int [digit] with
      | None => None
      | Some d =>
          let d := if (i mod 2 =? 0)%nat
                   then (let d := d * 2 in if 9 <? d then d - 9 else d)
                   else d in
          check_digit_loop (S i) (total + d) rest
      end
  end.

Definition is_rnd (s : pystr) : bool := Py.eqb (Py.lower s) (lit "rnd").

(** One iteration of the [for _ in range(quantity)] loop: the record that
    is appended to [generated]. *)
Definition generate_one (current_year : Z) (bin_pattern month year cvv : pystr)
    : Gen pystr :=
  card_num ← replace_x bin_pattern [];
  card_num ← fill_loop 15 card_num;
  total ← lift_exn (check_digit_loop 0 0 card_num);
  let check_digit := (total * 9) mod 10 in
  let card_num := card_num ++ Py.str check_digit in
  final_month ← (if is_rnd month
                 then m ← randint 1 12; mret (Py.zfill 2 (Py.str m))
                 else mret (Py.zfill 2 month));
  final_year ← (if is_rnd year
                then y ← randint (current_year + 1) (current_year + 7); mret (Py.str y)
                else mret (if (length year =? 4)%nat then year else lit "20" ++ year));
  final_cvv ← (if is_rnd cvv
               then c ← randint 100 999; mret (Py.str c)
               else mret (Py.zfill 3 cvv));
  mret (card_num ++ lit "|" ++ final_month ++ lit "|" ++ final_year
                 ++ lit "|" ++ final_cvv).

Fixpoint generate_loop (current_year : Z) (bin_pattern month year cvv : pystr)
    (quantity : nat) (generated : list pystr) : Gen (list pystr) :=
  match quantity with
  | O => mret generated
  | S quantity =>
      card ← generate_one current_year bin_pattern month year cvv;
      generate_loop current_year bin_pattern month year cvv quantity
                    (generated ++ [card])
  end.

(** [generate_cards()], the handler of [POST /api/generate]. *)
Definition generate_cards (current_year : Z) (ip : string) (now : Z)
    (bin_pattern : pystr) (quantity : Z) (month year cvv : pystr)
    (request_counts : gmap string (list Z)) (g : rng)
    : response * gmap string (list Z) :=
  let '(admitted, request_counts) := check_rate_limit ip now request_counts in
  if negb admitted then (rate_limited, request_counts)
  else if (length bin_pattern =? 0)%nat || (length bin_pattern <? 6)%nat
  then (RespError 400 "Invalid BIN", request_counts)
  else if (quantity <? 1) || (10000 <? quantity)
  then (RespError 400 "Invalid quantity (1-10000)", request_counts)
  else
    match generate_loop current_year bin_pattern month year cvv
                        (Z.to_nat quantity) [] g with
    | None => (Resp500, request_counts)
    | Some (generated, _) => (RespCards generated, request_counts)
    end.

(** ** Notions used to state the properties *)

(** Every character is one of ['0'..'9']. *)
Definition numeric (s : pystr) : Prop := Forall (λ c, Py.is_digit c = true) s.

(** A character of a well-formed BIN pattern: a digit, or [x] in either
    case. *)
Definition pattern_char (c : ascii) : bool :=
  Py.is_digit c || Py.eqb (Py.lower [c]) (lit "x").

(** [s] filled with zeros on the left up to [width] characters, the zeros
    going after a leading sign: the padding that the generator is said to
    apply to a fixed month and cvv. *)
Definition zero_padded (width : nat) (s : pystr) : pystr :=
  let '(sign, body) :=
    match s with
    | c :: rest =>
        if Ascii.eqb c "+" || Ascii.eqb c "-" then ([c], rest) else ([], s)
    | [] => ([], [])
    end in
  sign ++ repeat "0"%char (width - length s) ++ body.

(** The trimmed segments of a raw card string. *)
Definition segments (card_data : pystr) : list pystr :=
  map Py.strip (Py.split "|" card_data).

(** The month as the parser reads it: segment 1 padded to width 2. *)
Definition month_field (card_data : pystr) : pystr :=
  Py.zfill 2 (nth 1 (segments card_data) []).

(** ['|'.join(parts)] *)
Fixpoint join (sep : ascii) (parts : list pystr) : pystr :=
  match parts with
  | [] => []
  | [w] => w
  | w :: ws => w ++ sep :: join sep ws
  end.

(** The classification of one card: what one iteration of the batch loop
    appends, and what the single-card handler answers. *)
Definition classify (current_year : Z) (card_data : pystr) : validation_result :=
  match validate_card_format current_year card_data with
  | (Some validated, None) => luhn_result (luhn_check (card_number validated)) card_data
  | (_, error) => ValidationResult unknown (default ""%string error) card_data
  end.

(** A parse result with its [original] field replaced. *)
Definition with_original (raw : pystr) (r : option card_record * option string)
    : option card_record * option string :=
  match r with
  | (Some c, e) => (Some (CardRecord (card_number c) (month c) (year c) (cvv c) raw), e)
  | (None, e) => (None, e)
  end.

(** Successive calls of the rate limiter for one client, at the given clock
    readings. *)
Fixpoint admit_calls (ip : string) (times : list Z)
    (request_counts : gmap string (list Z)) : list bool * gmap string (list Z) :=
  match times with
  | [] => ([], request_counts)
  | now :: times =>
      let '(r, request_counts) := check_rate_limit ip now request_counts in
      let '(rs, request_counts) := admit_calls ip times request_counts in
      (r :: rs, request_counts)
  end.

(** Calls of the rate limiter by any clients, in order, each with its
    clock reading: the dictionary they leave. *)
Fixpoint serve_calls (calls : list (string * Z))
    (request_counts : gmap string (list Z)) : gmap string (list Z) :=
  match calls with
  | [] => request_counts
  | (ip, now) :: calls =>
      serve_calls calls (check_rate_limit ip now request_counts).2
  end.

(** ** Facts about the string primitives *)

Section PyFacts.

Lemma int_single (c : ascii) :
  Py.int [c] = if Py.is_digit c then Some (Py.digit_val c) else None.
Proof. destruct c as [[] [] [] [] [] [] [] []]; reflexivity. Qed.

Lemma digit_val_range (c : ascii) :
  Py.is_digit c = true → 0 ≤ Py.digit_val c ≤ 9.
Proof.
  unfold Py.is_digit, Py.digit_val. intros H.
  apply andb_true_iff in H as [H1 H2].
  apply Nat.leb_le in H1, H2. lia.
Qed.

End PyFacts.

(** ** The rate limiter *)

Section RateLimiter.

Implicit Types (rc : gmap string (list Z)) (ip : string) (h ts : list Z).

Lemma filter_keep_all (P : Z → Prop) `{!∀ x, Decision (P x)} h :
  Forall P h → filter P h = h.
Proof.
  induction 1 as [|x l Hx _ IH]; [done|].
  rewrite filter_cons, IH. by destruct (decide (P x)).
Qed.

Lemma filter_drop_all (P : Z → Prop) `{!∀ x, Decision (P x)} h :
  Forall (λ x, ¬ P x) h → filter P h = [].
Proof.
  induction 1 as [|x l Hx _ IH]; [done|].
  rewrite filter_cons, IH. by destruct (decide (P x)).
Qed.

(** A call that finds fewer than [RATE_LIMIT] live entries records the
    clock reading and admits. *)
Lemma check_rate_limit_admit ip now rc k :
  filter (λ req_time, now - req_time < RATE_WINDOW) (default [] (rc !! ip)) = k →
  (length k < RATE_LIMIT)%nat →
  ∃ rc', check_rate_limit ip now rc = (true, rc') ∧ rc' !! ip = Some (k ++ [now]).
Proof.
  intros Hk Hlen. unfold check_rate_limit. rewrite Hk.
  destruct (Nat.leb_spec RATE_LIMIT (length k)) as [Hge|_]; [lia|].
  eexists; split; [reflexivity|]. apply lookup_insert_eq.
Qed.

(** A call that finds [RATE_LIMIT] live entries or more rejects and keeps
    exactly those entries. *)
Lemma check_rate_limit_reject ip now rc k :
  filter (λ req_time, now - req_time < RATE_WINDOW) (default [] (rc !! ip)) = k →
  (RATE_LIMIT ≤ length k)%nat →
  ∃ rc', check_rate_limit ip now rc = (false, rc') ∧ rc' !! ip = Some k.
Proof.
  intros Hk Hlen. unfold check_rate_limit. rewrite Hk.
  destruct (Nat.leb_spec RATE_LIMIT (length k)) as [_|Hlt]; [|lia].
  eexists; split; [reflexivity|]. apply lookup_insert_eq.
Qed.

(** The limiter keeps one history per client: a call for [ip] leaves the
    history of every other client alone. *)
Lemma check_rate_limit_other_key ip ip' now rc :
  ip ≠ ip' → (check_rate_limit ip now rc).2 !! ip' = rc !! ip'.
Proof.
  intros Hne. unfold check_rate_limit.
  destruct (_ <=? _)%nat; simpl; by rewrite ?lookup_insert_ne.
Qed.

Lemma in_window_keeps (lo now : Z) h :
  lo ≤ now < lo + RATE_WINDOW →
  Forall (λ t, lo ≤ t < lo + RATE_WINDOW) h →
  filter (λ req_time, now - req_time < RATE_WINDOW) h = h.
Proof.
  intros Hnow Hh. apply filter_keep_all.
  eapply Forall_impl; [exact Hh|]. simpl. intros t Ht. lia.
Qed.

(** While the history stays below the limit, calls inside one window are
    all admitted and recorded in order. *)
Lemma admit_calls_within_window ip lo ts : ∀ rc h,
  default [] (rc !! ip) = h →
  Forall (λ t, lo ≤ t < lo + RATE_WINDOW) (h ++ ts) →
  (length h + length ts ≤ RATE_LIMIT)%nat →
  ∃ rc', admit_calls ip ts rc = (repeat true (length ts), rc')
         ∧ default [] (rc' !! ip) = h ++ ts.
Proof.
  induction ts as [|t ts IH]; intros rc h Hh Hwin Hlen.
  - exists rc. by rewrite app_nil_r.
  - apply Forall_app in Hwin as Hwin'. destruct Hwin' as [Hwh Hwts].
    apply Forall_cons in Hwts as [Ht Hwts].
    destruct (check_rate_limit_admit ip t rc h) as (rc1 & Hc & Hl).
    { rewrite Hh. by apply (in_window_keeps lo). }
    { simpl in Hlen. lia. }
    destruct (IH rc1 (h ++ [t])) as (rc2 & Hrun & Hfin).
    { by rewrite Hl. }
    { by rewrite <- app_assoc. }
    { rewrite length_app. simpl in *. lia. }
    exists rc2. simpl. rewrite Hc, Hrun. split; [done|].
    by rewrite Hfin, <- app_assoc.
Qed.

End RateLimiter.

(** C3. For one client key, with [RATE_LIMIT = 100] and
    [RATE_WINDOW = 3600]: when every earlier entry of the key has left the
    window, 100 calls whose clock readings lie in one window are all
    admitted; a 101st call in that window is rejected and leaves the 100
    recorded timestamps as they are; and a call made once those timestamps
    are at least [RATE_WINDOW] old is admitted again. *)
Theorem rate_limit_window (ip : string) (rc : gmap string (list Z))
    (ts : list Z) (t101 tlater lo : Z) :
  Forall (λ t0, ∀ t, t ∈ ts → RATE_WINDOW ≤ t - t0) (default [] (rc !! ip)) →
  length ts = RATE_LIMIT →
  Forall (λ t, lo ≤ t < lo + RATE_WINDOW) (ts ++ [t101]) →
  Forall (λ t, RATE_WINDOW ≤ tlater - t) ts →
  RATE_LIMIT = 100%nat ∧ RATE_WINDOW = 3600 ∧
  ∃ rc1 rc2 rc3,
    admit_calls ip ts rc = (repeat true 100, rc1) ∧
    check_rate_limit ip t101 rc1 = (false, rc2) ∧
    rc1 !! ip = Some ts ∧ rc2 !! ip = Some ts ∧
    check_rate_limit ip tlater rc2 = (true, rc3) ∧
    rc3 !! ip = Some [tlater].
Proof.
  intros Hold Hlen Hwin Hlater. do 2 (split; [reflexivity|]).
  apply Forall_app in Hwin as [Hts H101]. apply Forall_cons in H101 as [H101 _].
  destruct ts as [|t1 ts']; [discriminate Hlen|].
  (* the first call prunes the expired history *)
  destruct (check_rate_limit_admit ip t1 rc []) as (rca & Hca & Hla).
  { apply filter_drop_all. eapply Forall_impl; [exact Hold|]. simpl.
    intros t0 Ht0. specialize (Ht0 t1 ltac:(left)). lia. }
  { unfold RATE_LIMIT. simpl. lia. }
  apply Forall_cons in Hts as Hts'. destruct Hts' as [Ht1 Hts'].
  destruct (admit_calls_within_window ip lo ts' rca [t1]) as (rc1 & Hrun & Hfin).
  { by rewrite Hla. }
  { by apply Forall_cons. }
  { simpl in *. lia. }
  assert (Hrc1 : rc1 !! ip = Some (t1 :: ts')).
  { destruct (rc1 !! ip) eqn:E; simpl in Hfin; [by rewrite Hfin|discriminate]. }
  destruct (check_rate_limit_reject ip t101 rc1 (t1 :: ts')) as (rc2 & Hc2 & Hl2).
  { rewrite Hrc1. simpl. by apply (in_window_keeps lo). }
  { lia. }
  destruct (check_rate_limit_admit ip tlater rc2 []) as (rc3 & Hc3 & Hl3).
  { rewrite Hl2. simpl. apply filter_drop_all.
    eapply Forall_impl; [exact Hlater|]. simpl. intros t Ht. lia. }
  { unfold RATE_LIMIT. simpl. lia. }
  exists rc1, rc2, rc3. repeat split; try done.
  simpl. rewrite Hca, Hrun. f_equal.
  simpl in Hlen. injection Hlen as Hlen. rewrite Hlen. reflexivity.
Qed.

Lemma rate_limit_window_witness :
  RATE_LIMIT = 100%nat ∧ RATE_WINDOW = 3600 ∧
  ∃ rc1 rc2 rc3,
    admit_calls "10.0.0.1" (Z.of_nat <$> seq 0 100) ∅ = (repeat true 100, rc1) ∧
    check_rate_limit "10.0.0.1" 100 rc1 = (false, rc2) ∧
    rc1 !! "10.0.0.1" = Some (Z.of_nat <$> seq 0 100) ∧
    rc2 !! "10.0.0.1" = Some (Z.of_nat <$> seq 0 100) ∧
    check_rate_limit "10.0.0.1" 3700 rc2 = (true, rc3) ∧
    rc3 !! "10.0.0.1" = Some [3700].
Proof.
  apply (rate_limit_window "10.0.0.1" ∅ (Z.of_nat <$> seq 0 100) 100 3700 0).
  - rewrite lookup_empty. constructor.
  - reflexivity.
  - apply (bool_decide_unpack _). vm_compute. exact I.
  - apply (bool_decide_unpack _). vm_compute. exact I.
Defined.

(** ** The validation handlers *)

Section Handlers.

Variable current_year : Z.
Implicit Types (rc : gmap string (list Z)) (ip : string).

(** The parser returns a record and no message, or no record and one of
    its (non-empty) messages. *)
Lemma validate_card_format_cases (card_data : pystr) :
  (∃ r, validate_card_format current_year card_data = (Some r, None))
  ∨ (∃ m, validate_card_format current_year card_data = (None, Some m)
          ∧ truthy (Some m) = true).
Proof.
  unfold validate_card_format.
  repeat case_match;
    solve [ right; eexists; split; reflexivity | left; eexists; reflexivity ].
Qed.

(** The batch loop never raises, and appends the classification of each
    card in turn. *)
Lemma batch_loop_classify (cards : list pystr) : ∀ results,
  batch_loop current_year cards results
  = Some (results ++ map (classify current_year) cards).
Proof.
  induction cards as [|c cards IH]; intros results; simpl.
  - by rewrite app_nil_r.
  - unfold classify at 1.
    destruct (validate_card_format_cases c) as [[r ->]|(m & -> & Hm)].
    + simpl. rewrite IH. by rewrite <- app_assoc.
    + rewrite Hm. rewrite IH. by rewrite <- app_assoc.
Qed.

End Handlers.

(** For a non-empty card string the single-card handler answers with the
    classification that the batch handler computes for it. *)
Lemma validate_card_classify (current_year : Z) (ip : string) (now : Z)
    (card_data : pystr) (rc : gmap string (list Z)) :
  (check_rate_limit ip now rc).1 = true →
  card_data ≠ [] →
  (validate_card current_year ip now card_data rc).1
  = RespResult (classify current_year card_data).
Proof.
  intros Hadm Hne. unfold validate_card, classify.
  destruct (check_rate_limit ip now rc) as [adm rc']. simpl in Hadm. subst adm.
  simpl. destruct card_data as [|c s]; [done|].
  destruct (validate_card_format_cases current_year (c :: s)) as [[r ->]|(m & -> & Hm)].
  - reflexivity.
  - by rewrite Hm.
Qed.

(** C7. When the rate limiter admits the request: for a list of 1 to 100
    cards the batch handler answers with a list of results of the same
    length whose i-th element is the classification of the i-th card; for
    an empty list or one of more than 100 cards it answers with the error
    400. *)
Theorem validate_batch_order_and_length (current_year : Z) (ip : string)
    (now : Z) (cards : list pystr) (rc : gmap string (list Z)) :
  (check_rate_limit ip now rc).1 = true →
  ((1 ≤ length cards ≤ 100)%nat →
     ∃ results,
       (validate_batch current_year ip now cards rc).1 = RespResults results
       ∧ length results = length cards
       ∧ ∀ i card, cards !! i = Some card →
                   results !! i = Some (classify current_year card))
  ∧ ((length cards = 0 ∨ 100 < length cards)%nat →
     (validate_batch current_year ip now cards rc).1
     = RespError 400 "Invalid batch size (max 100)").
Proof.
  intros Hadm. unfold validate_batch.
  destruct (check_rate_limit ip now rc) as [adm rc']. simpl in Hadm. subst adm.
  simpl. split.
  - intros [Hlo Hhi]. exists (map (classify current_year) cards).
    destruct cards as [|c cards]; [simpl in Hlo; lia|].
    destruct (Nat.ltb_spec 100 (length (c :: cards))) as [Hgt|_]; [lia|].
    rewrite batch_loop_classify. simpl. repeat split.
    + by rewrite length_map.
    + intros i card Hi.
      change (classify current_year c :: map (classify current_year) cards)
        with (classify current_year <$> (c :: cards)).
      by rewrite list_lookup_fmap, Hi.
  - intros [Hz|Hgt].
    + by destruct cards.
    + destruct cards as [|c cards]; [done|].
      by destruct (Nat.ltb_spec 100 (length (c :: cards))) as [_|Hle]; [|lia].
Qed.

Lemma validate_batch_order_and_length_witness :
  let cards := [lit "4532015112830366|12|2030|123"; lit "junk";
                lit "1234567812345678|01|30|9999"] in
  (check_rate_limit "10.0.0.1" 0 ∅).1 = true
  ∧ ((1 ≤ length cards ≤ 100)%nat →
     ∃ results,
       (validate_batch 2026 "10.0.0.1" 0 cards ∅).1 = RespResults results
       ∧ length results = length cards
       ∧ ∀ i card, cards !! i = Some card → results !! i = Some (classify 2026 card))
  ∧ ((length cards = 0 ∨ 100 < length cards)%nat →
     (validate_batch 2026 "10.0.0.1" 0 cards ∅).1
     = RespError 400 "Invalid batch size (max 100)").
Proof.
  intros cards. split; [reflexivity|].
  apply (validate_batch_order_and_length 2026 "10.0.0.1" 0 cards ∅).
  reflexivity.
Defined.

(** C9. A batch request calls the rate limiter once, whatever the number
    of cards: the dictionary it leaves is the one a single
    [check_rate_limit] call leaves, the same as after a single-card
    request, and the client's history is the pruned history plus, when the
    request is admitted, the one timestamp [now]. *)
Theorem validate_batch_one_slot (current_year : Z) (ip : string) (now : Z)
    (cards : list pystr) (card_data : pystr) (rc : gmap string (list Z)) :
  let kept := filter (λ req_time, now - req_time < RATE_WINDOW)
                     (default [] (rc !! ip)) in
  (validate_batch current_year ip now cards rc).2 = (check_rate_limit ip now rc).2
  ∧ (validate_batch current_year ip now cards rc).2
    = (validate_card current_year ip now card_data rc).2
  ∧ (validate_batch current_year ip now cards rc).2 !! ip
    = Some (if (check_rate_limit ip now rc).1 then kept ++ [now] else kept).
Proof.
  intros kept.
  assert (Hb : (validate_batch current_year ip now cards rc).2
               = (check_rate_limit ip now rc).2).
  { unfold validate_batch. destruct (check_rate_limit ip now rc) as [[] rc']; simpl.
    - destruct cards; [done|]. destruct (_ <? _)%nat; [done|].
      by destruct (batch_loop _ _ _).
    - done. }
  assert (Hc : (validate_card current_year ip now card_data rc).2
               = (check_rate_limit ip now rc).2).
  { unfold validate_card. destruct (check_rate_limit ip now rc) as [[] rc']; simpl.
    - destruct card_data; [done|].
      destruct (validate_card_format _ _) as [v e].
      destruct (truthy e); [done|]. by destruct v.
    - done. }
  split; [exact Hb|]. split; [by rewrite Hb, Hc|].
  rewrite Hb. unfold check_rate_limit. fold kept.
  destruct (_ <=? _)%nat; simpl; by rewrite lookup_insert_eq.
Qed.

(** ** The Luhn engine *)

Section Luhn.

(** The loop raises as soon as a character is not a digit. *)
Lemma luhn_loop_non_digit (parity : nat) (s : pystr) : ∀ i total,
  Exists (λ c, Py.is_digit c = false) s →
  luhn_loop parity i total s = None.
Proof.
  induction s as [|c s IH]; intros i total Hex.
  - inversion Hex.
  - simpl. rewrite int_single.
    destruct (Py.is_digit c) eqn:Hc; [|reflexivity].
    apply IH. inversion Hex; subst; [congruence|assumption].
Qed.

(** On digits the loop never raises. *)
Lemma luhn_loop_numeric (parity : nat) (s : pystr) : ∀ i total,
  numeric s → ∃ total', luhn_loop parity i total s = Some total'.
Proof.
  induction s as [|c s IH]; intros i total Hnum.
  - by eexists.
  - apply Forall_cons in Hnum as [Hc Hs]. simpl. rewrite int_single, Hc.
    by apply IH.
Qed.

(** The loop over [s ++ t] is the loop over [s] followed by the loop over
    [t] from index [i + length s]. *)
Lemma luhn_loop_app (parity : nat) (s t : pystr) : ∀ i total,
  luhn_loop parity i total (s ++ t)
  = luhn_loop parity i total s ≫= λ total', luhn_loop parity (i + length s) total' t.
Proof.
  induction s as [|c s IH]; intros i total; simpl.
  - by rewrite Nat.add_0_r.
  - destruct (Py.int [c]) as [d|]; [|reflexivity].
    rewrite IH. by rewrite Nat.add_succ_r.
Qed.

End Luhn.

(** C6. The two known vectors: ["4532015112830366"] passes the Luhn check
    and ["1234567812345678"] does not. *)
Theorem luhn_check_known_vectors :
  luhn_check (lit "4532015112830366") = true
  ∧ luhn_check (lit "1234567812345678") = false.
Proof. split; reflexivity. Qed.

(** C2, as the code has it. [luhn_check] never raises: on an input with at
    least one character that is not a digit the [try] block raises and the
    answer is [False]; on the empty input nothing raises, the sum is 0 and
    the answer is [True]. *)
Theorem luhn_check_invalid_input (s : pystr) :
  s = [] ∨ Exists (λ c, Py.is_digit c = false) s →
  (s = [] ∧ luhn_check s = true)
  ∨ (s ≠ [] ∧ luhn_try s = None ∧ luhn_check s = false).
Proof.
  intros [->|Hex].
  - left. split; reflexivity.
  - right. assert (Htry : luhn_try s = None).
    { unfold luhn_try. by rewrite luhn_loop_non_digit. }
    repeat split; [|done|].
    + intros ->. inversion Hex.
    + unfold luhn_check. by rewrite Htry.
Qed.

Lemma luhn_check_invalid_input_witness :
  ((lit "4532 0151" = [] ∧ luhn_check (lit "4532 0151") = true)
   ∨ (lit "4532 0151" ≠ [] ∧ luhn_try (lit "4532 0151") = None
      ∧ luhn_check (lit "4532 0151") = false))
  ∧ ((lit "" = [] ∧ luhn_check (lit "") = true)
     ∨ (lit "" ≠ [] ∧ luhn_try (lit "") = None ∧ luhn_check (lit "") = false)).
Proof.
  split.
  - apply (luhn_check_invalid_input (lit "4532 0151")).
    right. apply (bool_decide_unpack _). vm_compute. exact I.
  - apply (luhn_check_invalid_input (lit "")). left. reflexivity.
Defined.

(** The empty string passes the Luhn check. *)
Lemma luhn_check_empty_counterexample : ¬ (luhn_check (lit "") = false).
Proof. vm_compute. discriminate. Qed.

(** ** The card string parser *)

Section StripAndInt.













End StripAndInt.




(** A signed month segment is returned with its sign. *)
Example validate_card_format_signed_month :
  ∃ r, validate_card_format 2026 (lit "4111111111111111|+5|2030|123") = (Some r, None)
       ∧ month r = lit "+5" ∧ ¬ numeric (month r).
Proof.
  eexists. split; [reflexivity|]. split; [reflexivity|].
  intros H. apply Forall_cons in H as [H _]. discriminate H.
Qed.

(** A cvv with a superscript two is accepted and returned. *)
Example validate_card_format_superscript_cvv :
  ∃ r, validate_card_format 2026
         (lit "4111111111111111|12|2030|12" ++ [ascii_of_nat 178]) = (Some r, None)
       ∧ cvv r = lit "12" ++ [ascii_of_nat 178] ∧ ¬ numeric (cvv r).
Proof.
  eexists. split; [reflexivity|]. split; [reflexivity|].
  intros H. apply Forall_cons in H as [_ H]. apply Forall_cons in H as [_ H].
  apply Forall_cons in H as [H _]. discriminate H.
Qed.

(** White space around a segment is trimmed, the no-break space too. *)
Example validate_card_format_no_break_space :
  validate_card_format 2026
    (lit "4111111111111111|" ++ [ascii_of_nat 160] ++ lit "13|2030|123")
  = (None, Some "Invalid month"%string)
  ∧ ∃ r, validate_card_format 2026
           (lit "4111111111111111|12|2030|123" ++ [ascii_of_nat 160]) = (Some r, None)
         ∧ cvv r = lit "123".
Proof. split; [reflexivity|]. eexists. split; reflexivity. Qed.

(** C5, as the code has it. On a raw input with at least four segments and
    13 to 19 digits in the number segment: when [int] raises on the padded
    month segment the parser fails with ["Invalid month format"]; when it
    reads a value outside 1..12 the parser fails with ["Invalid month"]. *)
Theorem validate_card_format_month_errors (current_year : Z) (raw : pystr) :
  (4 ≤ length (segments raw))%nat →
  (13 ≤ length (Py.re_sub_nondigit (nth 0 (segments raw) [])) ≤ 19)%nat →
  match Py.int (month_field raw) with
  | None => validate_card_format current_year raw = (None, Some "Invalid month format"%string)
  | Some m => m < 1 ∨ 12 < m →
              validate_card_format current_year raw = (None, Some "Invalid month"%string)
  end.
Proof.
  intros Hseg [Hlo Hhi]. unfold validate_card_format, month_field.
  fold (segments raw).
  destruct (Nat.ltb_spec (length (segments raw)) 4) as [?|_]; [lia|].
  destruct (Nat.ltb_spec (length (Py.re_sub_nondigit (nth 0 (segments raw) []))) 13)
    as [?|_]; [lia|].
  destruct (Nat.ltb_spec 19 (length (Py.re_sub_nondigit (nth 0 (segments raw) []))))
    as [?|_]; [lia|].
  simpl. destruct (Py.int _) as [m|]; [|reflexivity].
  intros Hm.
  destruct (Z.ltb_spec m 1), (Z.ltb_spec 12 m); simpl; try reflexivity. lia.
Qed.

Lemma validate_card_format_month_errors_witness :
  validate_card_format 2026 (lit "4111-1111-1111-1111 | 13 | 25 | 123")
  = (None, Some "Invalid month"%string)
  ∧ validate_card_format 2026 (lit "4111111111111111|1x|2030|123")
    = (None, Some "Invalid month format"%string).
Proof.
  split.
  - pose proof (validate_card_format_month_errors 2026
                  (lit "4111-1111-1111-1111 | 13 | 25 | 123")) as H.
    assert (H1 : (4 ≤ length (segments (lit "4111-1111-1111-1111 | 13 | 25 | 123")))%nat)
      by (vm_compute; lia).
    assert (H2 : (13 ≤ length (Py.re_sub_nondigit
                     (nth 0 (segments (lit "4111-1111-1111-1111 | 13 | 25 | 123")) []))
                  ≤ 19)%nat) by (vm_compute; lia).
    specialize (H H1 H2).
    assert (E : Py.int (month_field (lit "4111-1111-1111-1111 | 13 | 25 | 123")) = Some 13)
      by (vm_compute; reflexivity).
    rewrite E in H. apply H. right. lia.
  - pose proof (validate_card_format_month_errors 2026
                  (lit "4111111111111111|1x|2030|123")) as H.
    assert (H1 : (4 ≤ length (segments (lit "4111111111111111|1x|2030|123")))%nat)
      by (vm_compute; lia).
    assert (H2 : (13 ≤ length (Py.re_sub_nondigit
                     (nth 0 (segments (lit "4111111111111111|1x|2030|123")) []))
                  ≤ 19)%nat) by (vm_compute; lia).
    specialize (H H1 H2).
    assert (E : Py.int (month_field (lit "4111111111111111|1x|2030|123")) = None)
      by (vm_compute; reflexivity).
    rewrite E in H. exact H.
Defined.

(** A month segment that is not an integer gets the message
    ["Invalid month format"], not ["Invalid month"]. *)
Lemma validate_card_format_month_format_counterexample :
  Py.int (month_field (lit "4111111111111111|ab|2030|123")) = None
  ∧ validate_card_format 2026 (lit "4111111111111111|ab|2030|123")
    ≠ (None, Some "Invalid month"%string).
Proof. split; [reflexivity|]. vm_compute. discriminate. Qed.

(** A month of 4301 digits is more than [int] reads: the parser answers
    ["Invalid month format"]. *)
Example validate_card_format_month_too_long :
  validate_card_format 2026
    (lit "4111111111111111|" ++ repeat "9"%char 4301 ++ lit "|2030|123")
  = (None, Some "Invalid month format"%string)
  ∧ validate_card_format 2026
      (lit "4111111111111111|" ++ repeat "9"%char 4300 ++ lit "|2030|123")
    = (None, Some "Invalid month"%string).
Proof. split; vm_compute; reflexivity. Qed.

Section Segments.

Variable sep : ascii.

(** No segment produced by [split] holds the separator. *)
Lemma split_no_sep (s : pystr) : Forall (λ w, sep ∉ w) (Py.split sep s).
Proof.
  induction s as [|c s IH]; simpl.
  - repeat constructor. apply not_elem_of_nil.
  - destruct (Ascii.eqb_spec c sep) as [->|Hne].
    + constructor; [apply not_elem_of_nil|exact IH].
    + destruct (Py.split sep s) as [|w ws]; [repeat constructor|].
      * by intros ?%list_elem_of_singleton.
      * apply Forall_cons in IH as [Hw Hws]. constructor; [|done].
        intros [?|?]%elem_of_cons; [by apply Hne|by apply Hw].
Qed.

Lemma split_nonempty (s : pystr) : Py.split sep s ≠ [].
Proof.
  destruct s as [|c s]; simpl; [done|].
  destruct (Ascii.eqb c sep); [done|]. by destruct (Py.split sep s).
Qed.

(** A string without the separator is its own single segment. *)
Lemma split_without_sep (w : pystr) : sep ∉ w → Py.split sep w = [w].
Proof.
  induction w as [|c w IH]; intros Hw; simpl; [done|].
  apply not_elem_of_cons in Hw as [Hc Hw].
  destruct (Ascii.eqb_spec c sep) as [->|_]; [done|]. by rewrite IH.
Qed.

(** Splitting at the first separator. *)
Lemma split_app_sep (w t : pystr) :
  sep ∉ w → Py.split sep (w ++ sep :: t) = w :: Py.split sep t.
Proof.
  induction w as [|c w IH]; intros Hw; simpl.
  - by rewrite Ascii.eqb_refl.
  - apply not_elem_of_cons in Hw as [Hc Hw].
    destruct (Ascii.eqb_spec c sep) as [->|_]; [done|]. by rewrite IH.
Qed.

(** [split] undoes [join] on segments that are free of the separator. *)
Lemma split_join (parts : list pystr) :
  parts ≠ [] → Forall (λ w, sep ∉ w) parts →
  Py.split sep (join sep parts) = parts.
Proof.
  induction parts as [|w [|w' ws] IH]; intros Hne Hall; [done| |].
  - apply Forall_cons in Hall as [Hw _]. simpl. by apply split_without_sep.
  - apply Forall_cons in Hall as [Hw Hws].
    change (join sep (w :: w' :: ws)) with (w ++ sep :: join sep (w' :: ws)).
    rewrite split_app_sep by done. by rewrite IH.
Qed.

End Segments.

(** The parser reads the first four trimmed segments and nothing else of
    the raw string, apart from copying it into [original]. *)
Lemma validate_card_format_first_four (current_year : Z) (raw raw' : pystr) :
  (4 ≤ length (segments raw))%nat →
  take 4 (segments raw') = take 4 (segments raw) →
  validate_card_format current_year raw
  = with_original raw (validate_card_format current_year raw').
Proof.
  intros Hlen Htake.
  assert (Hlen' : (4 ≤ length (segments raw'))%nat).
  { apply (f_equal length) in Htake. rewrite !length_take in Htake. lia. }
  assert (Hnth : ∀ i, (i < 4)%nat → nth i (segments raw') [] = nth i (segments raw) []).
  { intros i Hi. rewrite !nth_lookup.
    rewrite <- (lookup_take_lt (segments raw') 4 i) by done.
    rewrite <- (lookup_take_lt (segments raw) 4 i) by done.
    by rewrite Htake. }
  unfold validate_card_format. fold (segments raw) (segments raw').
  destruct (Nat.ltb_spec (length (segments raw)) 4) as [?|_]; [lia|].
  destruct (Nat.ltb_spec (length (segments raw')) 4) as [?|_]; [lia|].
  rewrite !Hnth by lia.
  repeat case_match; reflexivity.
Qed.

(** C8. When the raw string splits on ['|'] into more than four segments,
    the parser answers as it does on the first four segments alone (joined
    again with ['|']): the same failure, or the same card number, month,
    year and cvv; only [original] differs, which is the raw string that
    was given. *)
Theorem validate_card_format_extra_segments (current_year : Z) (raw : pystr) :
  (4 < length (Py.split "|" raw))%nat →
  validate_card_format current_year raw
  = with_original raw
      (validate_card_format current_year (join "|" (take 4 (Py.split "|" raw)))).
Proof.
  intros Hlen. apply validate_card_format_first_four.
  - unfold segments. rewrite length_map. lia.
  - unfold segments. rewrite split_join.
    + rewrite <- !fmap_take. by rewrite take_take.
    + destruct (Py.split "|" raw); [simpl in Hlen; lia|done].
    + apply Forall_take, split_no_sep.
Qed.

Lemma validate_card_format_extra_segments_witness :
  join "|" (take 4 (Py.split "|" (lit "4111111111111111|12|2030|123|x|||9")))
  = lit "4111111111111111|12|2030|123"
  ∧ validate_card_format 2026 (lit "4111111111111111|12|2030|123|x|||9")
    = with_original (lit "4111111111111111|12|2030|123|x|||9")
        (validate_card_format 2026 (lit "4111111111111111|12|2030|123")).
Proof.
  split; [reflexivity|].
  apply (validate_card_format_extra_segments 2026
           (lit "4111111111111111|12|2030|123|x|||9")).
  vm_compute. lia.
Defined.

(** ** The card generator *)

Section Generator.

Lemma bind_Some {A B} (m : Gen A) (f : A → Gen B) (g g' : rng) (b : B) :
  (m ≫= f) g = Some (b, g') →
  ∃ a g1, m g = Some (a, g1) ∧ f a g1 = Some (b, g').
Proof.
  unfold mbind, Gen_bind. destruct (m g) as [[a g1]|]; [eauto|discriminate].
Qed.

Lemma bind_eq {A B} (m : Gen A) (f : A → Gen B) (g g1 : rng) (a : A) :
  m g = Some (a, g1) → (m ≫= f) g = f a g1.
Proof. unfold mbind, Gen_bind. by intros ->. Qed.

(** [randint] always returns, with a value of the requested range. *)
Lemma randint_range (a b : Z) (g : rng) :
  a ≤ b → ∃ x g', randint a b g = Some (x, g') ∧ a ≤ x ≤ b.
Proof.
  intros Hab. eexists _, _. split; [reflexivity|].
  pose proof (Z.mod_pos_bound (g 0%nat) (b - a + 1) ltac:(lia)). lia.
Qed.

(** [str(d)] of a one-digit number is that digit. *)
Lemma str_digit (d : Z) :
  0 ≤ d ≤ 9 →
  ∃ c, Py.str d = [c] ∧ Py.is_digit c = true ∧ Py.digit_val c = d.
Proof.
  intros Hd.
  assert (d = 0 ∨ d = 1 ∨ d = 2 ∨ d = 3 ∨ d = 4 ∨ d = 5 ∨ d = 6 ∨ d = 7
          ∨ d = 8 ∨ d = 9) as Hcases by lia.
  repeat (destruct Hcases as [->|Hcases]); try subst d;
    eexists; repeat split; reflexivity.
Qed.

Lemma numeric_app (s t : pystr) : numeric s → numeric t → numeric (s ++ t).
Proof. unfold numeric. intros. by apply Forall_app. Qed.

(** The check-digit loop is the Luhn loop with parity 0. *)
Lemma check_digit_loop_luhn (s : pystr) : ∀ i total,
  check_digit_loop i total s = luhn_loop 0 i total s.
Proof.
  induction s as [|c s IH]; intros i total; simpl; [done|].
  destruct (Py.int [c]); [apply IH|done].
Qed.

(** When the check-digit loop does not raise, it ran over digits. *)
Lemma check_digit_loop_numeric (s : pystr) : ∀ i total total',
  check_digit_loop i total s = Some total' → numeric s.
Proof.
  induction s as [|c s IH]; intros i total total'; simpl; [constructor|].
  rewrite int_single. destruct (Py.is_digit c) eqn:Hc; [|discriminate].
  intros H. constructor; [done|]. by eapply IH.
Qed.

(** The shape of every record that one iteration emits. *)
Lemma generate_one_shape (current_year : Z) (bin_pattern month year cvv : pystr)
    (g g' : rng) (card : pystr) :
  generate_one current_year bin_pattern month year cvv g = Some (card, g') →
  ∃ num fm fy fc,
    card = num ++ lit "|" ++ fm ++ lit "|" ++ fy ++ lit "|" ++ fc
    ∧ numeric num
    ∧ (is_rnd month = false → fm = Py.zfill 2 month)
    ∧ (is_rnd cvv = false → fc = Py.zfill 3 cvv).
Proof.
  unfold generate_one. intros H.
  apply bind_Some in H as (s1 & g1 & _ & H).
  apply bind_Some in H as (s2 & g2 & _ & H).
  apply bind_Some in H as (total & g3 & Htot & H).
  apply bind_Some in H as (fm & g4 & Hfm & H).
  apply bind_Some in H as (fy & g5 & _ & H).
  apply bind_Some in H as (fc & g6 & Hfc & H).
  injection H as <- <-.
  exists (s2 ++ Py.str ((total * 9) mod 10)), fm, fy, fc.
  split; [reflexivity|]. split; [|split].
  - unfold lift_exn in Htot.
    destruct (check_digit_loop 0 0 s2) as [t|] eqn:Hloop; [|discriminate].
    apply numeric_app; [by eapply check_digit_loop_numeric|].
    destruct (str_digit ((total * 9) mod 10)) as (c & -> & Hc & _).
    { pose proof (Z.mod_pos_bound (total * 9) 10 ltac:(lia)). lia. }
    by constructor.
  - intros Hm. rewrite Hm in Hfm. by injection Hfm as <- _.
  - intros Hc. rewrite Hc in Hfc. by injection Hfc as <- _.
Qed.

(** What holds of each record holds of the whole batch. *)
Lemma generate_loop_Forall (P : pystr → Prop) (current_year : Z)
    (bin_pattern month year cvv : pystr) :
  (∀ g g' card, generate_one current_year bin_pattern month year cvv g
                = Some (card, g') → P card) →
  ∀ quantity generated g cards g',
    Forall P generated →
    generate_loop current_year bin_pattern month year cvv quantity generated g
    = Some (cards, g') →
    Forall P cards.
Proof.
  intros Hone. induction quantity as [|n IH]; intros generated g cards g' Hgen; simpl.
  - by intros [= <- _].
  - intros H. apply bind_Some in H as (card & g1 & Hc & H).
    eapply IH; [|exact H]. apply Forall_app. split; [done|].
    constructor; [by eapply Hone|constructor].
Qed.

End Generator.

(** ** Luhn validity of generated numbers *)

Section GeneratedNumbers.

Variable current_year : Z.

(** The first loop never raises: it adds one character per character of
    the pattern, and digits only when the pattern is well formed. *)
Lemma replace_x_spec (bin_pattern : pystr) : ∀ card_num g,
  ∃ out g', replace_x bin_pattern card_num g = Some (out, g')
    ∧ length out = (length card_num + length bin_pattern)%nat
    ∧ (numeric card_num → Forall (λ c, pattern_char c = true) bin_pattern →
       numeric out).
Proof.
  induction bin_pattern as [|char rest IH]; intros card_num g.
  - exists card_num, g. split; [done|]. split; [simpl; lia|done].
  - change (replace_x (char :: rest) card_num)
      with (if Py.eqb (Py.lower [char]) (lit "x")
            then d ← randint 0 9; replace_x rest (card_num ++ Py.str d)
            else replace_x rest (card_num ++ [char])).
    destruct (Py.eqb (Py.lower [char]) (lit "x")) eqn:Hx.
    + destruct (randint_range 0 9 g ltac:(lia)) as (d & g1 & Hd & Hrange).
      destruct (str_digit d Hrange) as (c & Hc & Hdig & _).
      rewrite (bind_eq _ _ _ _ _ Hd), Hc.
      destruct (IH (card_num ++ [c]) g1) as (out & g' & -> & Hlen & Hnum).
      exists out, g'. split; [done|]. split.
      * rewrite Hlen, length_app. simpl. lia.
      * intros Hacc Hpat. apply Forall_cons in Hpat as [_ Hpat].
        apply Hnum; [|done]. apply numeric_app; [done|by constructor].
    + destruct (IH (card_num ++ [char]) g) as (out & g' & -> & Hlen & Hnum).
      exists out, g'. split; [done|]. split.
      * rewrite Hlen, length_app. simpl. lia.
      * intros Hacc Hpat. apply Forall_cons in Hpat as [Hchar Hpat].
        apply Hnum; [|done]. apply numeric_app; [done|].
        constructor; [|constructor].
        unfold pattern_char in Hchar. rewrite Hx in Hchar.
        by rewrite orb_false_r in Hchar.
Qed.

(** The [while] loop ends within [15 - len(card_num)] iterations, with a
    string of [max(len(card_num), 15)] characters. *)
Lemma fill_loop_spec (fuel : nat) : ∀ card_num g,
  (15 ≤ length card_num + fuel)%nat →
  ∃ out g', fill_loop fuel card_num g = Some (out, g')
    ∧ length out = (length card_num `max` 15)%nat
    ∧ (numeric card_num → numeric out).
Proof.
  induction fuel as [|fuel IH]; intros card_num g Hfuel.
  - simpl. destruct (Nat.ltb_spec (length card_num) 15) as [?|Hge]; [lia|].
    exists card_num, g. split; [done|]. split; [lia|done].
  - simpl. destruct (Nat.ltb_spec (length card_num) 15) as [Hlt|Hge].
    + destruct (randint_range 0 9 g ltac:(lia)) as (d & g1 & Hd & Hrange).
      destruct (str_digit d Hrange) as (c & Hc & Hdig & _).
      rewrite (bind_eq _ _ _ _ _ Hd), Hc.
      destruct (IH (card_num ++ [c]) g1) as (out & g' & -> & Hlen & Hnum).
      { rewrite length_app. simpl. lia. }
      exists out, g'. split; [done|]. split.
      * rewrite Hlen, length_app. simpl. lia.
      * intros Hacc. apply Hnum, numeric_app; [done|by constructor].
    + exists card_num, g. split; [done|]. split; [lia|done].
Qed.

(** The digit appended by the generator makes a number of even length
    pass the Luhn check. *)
Lemma luhn_check_append_check_digit (card_num : pystr) (total : Z) :
  Nat.Odd (length card_num) →
  check_digit_loop 0 0 card_num = Some total →
  luhn_check (card_num ++ Py.str ((total * 9) mod 10)) = true.
Proof.
  intros [k Hk] Hloop.
  destruct (str_digit ((total * 9) mod 10)) as (c & -> & Hdig & Hval).
  { pose proof (Z.mod_pos_bound (total * 9) 10 ltac:(lia)). lia. }
  unfold luhn_check, luhn_try.
  assert (Hpar : (length (card_num ++ [c]) mod 2 = 0)%nat).
  { rewrite length_app. cbn [length]. rewrite Hk.
    replace (2 * k + 1 + 1)%nat with ((k + 1) * 2)%nat by lia.
    apply Nat.Div0.mod_mul. }
  rewrite Hpar, luhn_loop_app, <- check_digit_loop_luhn, Hloop.
  cbn [mbind option_bind luhn_loop Nat.add].
  rewrite int_single, Hdig, Hval.
  assert (Hodd : (length card_num mod 2 =? 0)%nat = false).
  { apply Nat.eqb_neq. rewrite Hk.
    replace (2 * k + 1)%nat with (1 + k * 2)%nat by lia.
    rewrite Nat.Div0.mod_add. discriminate. }
  rewrite Hodd. apply Z.eqb_eq.
  rewrite Z.add_mod_idemp_r by lia.
  replace (total + total * 9) with (total * 10) by lia.
  apply Z.mod_mul. lia.
Qed.

(** On a well-formed pattern one iteration always emits a record; its
    number has [max(len(pattern), 15) + 1] digits and passes the Luhn
    check when that length is even. *)
Lemma generate_one_luhn (bin_pattern month year cvv : pystr) (g : rng) :
  Forall (λ c, pattern_char c = true) bin_pattern →
  ∃ card g' num rest,
    generate_one current_year bin_pattern month year cvv g = Some (card, g')
    ∧ card = num ++ lit "|" ++ rest
    ∧ numeric num
    ∧ length num = S (length bin_pattern `max` 15)
    ∧ (Nat.Odd (length bin_pattern `max` 15) → luhn_check num = true).
Proof.
  intros Hpat. unfold generate_one.
  destruct (replace_x_spec bin_pattern [] g) as (s1 & g1 & H1 & Hlen1 & Hnum1).
  rewrite (bind_eq _ _ _ _ _ H1).
  destruct (fill_loop_spec 15 s1 g1 ltac:(lia)) as (s2 & g2 & H2 & Hlen2 & Hnum2).
  rewrite (bind_eq _ _ _ _ _ H2).
  assert (Hs2 : numeric s2) by (apply Hnum2, Hnum1; [constructor|done]).
  destruct (luhn_loop_numeric 0 s2 0 0 Hs2) as [total Htotal].
  rewrite <- check_digit_loop_luhn in Htotal.
  assert (Hlift : lift_exn (check_digit_loop 0 0 s2) g2 = Some (total, g2)).
  { unfold lift_exn. by rewrite Htotal. }
  rewrite (bind_eq _ _ _ _ _ Hlift).
  set (fm := if is_rnd month then _ else _).
  set (fy := if is_rnd year then _ else _).
  set (fc := if is_rnd cvv then _ else _).
  assert (Hfm : ∃ a g', fm g2 = Some (a, g')).
  { unfold fm. destruct (is_rnd month); eexists _, _; reflexivity. }
  destruct Hfm as (m & g3 & Hfm). rewrite (bind_eq _ _ _ _ _ Hfm).
  assert (Hfy : ∃ a g', fy g3 = Some (a, g')).
  { unfold fy. destruct (is_rnd year); eexists _, _; reflexivity. }
  destruct Hfy as (y & g4 & Hfy). rewrite (bind_eq _ _ _ _ _ Hfy).
  assert (Hfc : ∃ a g', fc g4 = Some (a, g')).
  { unfold fc. destruct (is_rnd cvv); eexists _, _; reflexivity. }
  destruct Hfc as (c & g5 & Hfc). rewrite (bind_eq _ _ _ _ _ Hfc).
  destruct (str_digit ((total * 9) mod 10)) as (cd & Hcd & Hdig & _).
  { pose proof (Z.mod_pos_bound (total * 9) 10 ltac:(lia)). lia. }
  eexists _, g5, (s2 ++ Py.str ((total * 9) mod 10)), _.
  split; [reflexivity|]. split; [by rewrite <- !app_assoc|].
  assert (Hl2 : length s2 = (length bin_pattern `max` 15)%nat).
  { rewrite Hlen2, Hlen1. simpl. lia. }
  split; [|split].
  - apply numeric_app; [done|]. rewrite Hcd. by constructor.
  - rewrite length_app, Hcd, Hl2. simpl. lia.
  - intros Hodd. apply luhn_check_append_check_digit; [by rewrite Hl2|done].
Qed.

(** A loop of iterations that always emit, emits [quantity] records. *)
Lemma generate_loop_total (P : pystr → Prop) (bin_pattern month year cvv : pystr) :
  (∀ g, ∃ card g', generate_one current_year bin_pattern month year cvv g
                   = Some (card, g') ∧ P card) →
  ∀ quantity generated g,
    ∃ cards g',
      generate_loop current_year bin_pattern month year cvv quantity generated g
      = Some (cards, g')
      ∧ length cards = (length generated + quantity)%nat
      ∧ (Forall P generated → Forall P cards).
Proof.
  intros Hone. induction quantity as [|n IH]; intros generated g; simpl.
  - exists generated, g. split; [done|]. split; [lia|done].
  - destruct (Hone g) as (card & g1 & Hc & HP).
    rewrite (bind_eq _ _ _ _ _ Hc).
    destruct (IH (generated ++ [card]) g1) as (cards & g' & -> & Hlen & HF).
    exists cards, g'. split; [done|]. split.
    + rewrite Hlen, length_app. simpl. lia.
    + intros Hgen. apply HF, Forall_app. split; [done|]. by repeat constructor.
Qed.

End GeneratedNumbers.

(** X1. On a well-formed pattern (digits and [x] or [X], at least six
    characters) and a quantity from 1 to 10000, an admitted request is
    answered with exactly [quantity] records, each starting with a numeric
    card number; when [max(len(pattern), 15)] is odd, as for every pattern
    of at most 15 characters, each number passes [luhn_check]. *)
Theorem generate_cards_luhn_valid (current_year : Z) (ip : string) (now : Z)
    (bin_pattern : pystr) (quantity : Z) (month year cvv : pystr)
    (rc : gmap string (list Z)) (g : rng) :
  (check_rate_limit ip now rc).1 = true →
  Forall (λ c, pattern_char c = true) bin_pattern →
  (6 ≤ length bin_pattern)%nat →
  1 ≤ quantity ≤ 10000 →
  ∃ cards,
    (generate_cards current_year ip now bin_pattern quantity month year cvv rc g).1
    = RespCards cards
    ∧ length cards = Z.to_nat quantity
    ∧ Forall (λ card, ∃ num rest,
        card = num ++ lit "|" ++ rest ∧ numeric num
        ∧ (Nat.Odd (length bin_pattern `max` 15) → luhn_check num = true)) cards.
Proof.
  intros Hadm Hpat Hlen Hq. unfold generate_cards.
  destruct (check_rate_limit ip now rc) as [adm rc1]. simpl in Hadm. subst adm.
  simpl negb. cbv iota.
  destruct (Nat.eqb_spec (length bin_pattern) 0) as [?|_]; [lia|].
  destruct (Nat.ltb_spec (length bin_pattern) 6) as [?|_]; [lia|].
  destruct (Z.ltb_spec quantity 1) as [?|_]; [lia|].
  destruct (Z.ltb_spec 10000 quantity) as [?|_]; [lia|].
  simpl orb. cbv iota.
  edestruct (generate_loop_total current_year
    (λ card, ∃ num rest, card = num ++ lit "|" ++ rest ∧ numeric num
       ∧ (Nat.Odd (length bin_pattern `max` 15) → luhn_check num = true))
    bin_pattern month year cvv) as (cards & g' & -> & Hn & HF).
  { intros g1.
    destruct (generate_one_luhn current_year bin_pattern month year cvv g1 Hpat)
      as (card & g2 & num & rest & Hone & Hcard & Hnum & _ & Hluhn).
    exists card, g2. split; [exact Hone|]. by exists num, rest. }
  exists cards. simpl. split; [done|]. split; [by rewrite Hn|].
  apply HF. constructor.
Qed.

Lemma generate_cards_luhn_valid_witness :
  ∃ cards,
    (generate_cards 2026 "10.0.0.1" 0 (lit "4532xX") 3 (lit "rnd") (lit "rnd")
       (lit "rnd") ∅ (λ n, Z.of_nat n * 7 + 3)).1 = RespCards cards
    ∧ length cards = Z.to_nat 3
    ∧ Forall (λ card, ∃ num rest,
        card = num ++ lit "|" ++ rest ∧ numeric num
        ∧ (Nat.Odd (length (lit "4532xX") `max` 15) → luhn_check num = true)) cards.
Proof.
  apply (generate_cards_luhn_valid 2026 "10.0.0.1" 0 (lit "4532xX") 3).
  - reflexivity.
  - apply (bool_decide_unpack _). vm_compute. exact I.
  - vm_compute. lia.
  - lia.
Defined.

(** C1 on a pattern of 16 digits. The generator doubles the positions 0,
    2, 4, ... of the 16 characters and appends the digit 8; [luhn_check]
    reads the 17 characters with parity 1, doubles the positions 1, 3, 5,
    ... and gets the sum 9: the emitted number fails the Luhn check. *)
Theorem generate_cards_sixteen_digits_not_luhn (g : rng) :
  (generate_cards 2026 "10.0.0.1" 0 (lit "1000000000000000") 1
     (lit "12") (lit "2030") (lit "123") ∅ g).1
  = RespCards [lit "10000000000000008|12|2030|123"]
  ∧ Forall (λ c, pattern_char c = true) (lit "1000000000000000")
  ∧ luhn_check (lit "10000000000000008") = false.
Proof.
  split; [reflexivity|]. split; [|reflexivity].
  apply (bool_decide_unpack _). vm_compute. exact I.
Qed.

(** ** More on the rate limiter *)

Section RateLimiterInvariants.

Implicit Types (rc : gmap string (list Z)) (ip : string) (h ts : list Z).

(** The history that a call leaves for its client, in terms of the pruned
    history. *)
Lemma check_rate_limit_history ip now rc :
  let kept := filter (λ req_time, now - req_time < RATE_WINDOW)
                     (default [] (rc !! ip)) in
  (check_rate_limit ip now rc).2 !! ip
  = Some (if (check_rate_limit ip now rc).1 then kept ++ [now] else kept)
  ∧ ((check_rate_limit ip now rc).1 = true → (length kept < RATE_LIMIT)%nat).
Proof.
  intros kept. unfold check_rate_limit. fold kept.
  destruct (Nat.leb_spec RATE_LIMIT (length kept)); simpl;
    rewrite lookup_insert_eq; split; done.
Qed.

Lemma filter_window_fresh (now : Z) h :
  Forall (λ t, now - t < RATE_WINDOW)
         (filter (λ req_time, now - req_time < RATE_WINDOW) h).
Proof. apply Forall_forall. by intros t [Ht _]%list_elem_of_filter. Qed.

(** The number of entries of a history that lie in the window starting at
    [lo] never shrinks under a call made inside that window. *)
Lemma filter_window_keeps_inside (lo now : Z) h :
  lo ≤ now < lo + RATE_WINDOW →
  filter (λ t, lo ≤ t < lo + RATE_WINDOW)
         (filter (λ req_time, now - req_time < RATE_WINDOW) h)
  = filter (λ t, lo ≤ t < lo + RATE_WINDOW) h.
Proof.
  intros Hnow. induction h as [|t h IH]; [done|].
  rewrite (filter_cons (λ req_time, now - req_time < RATE_WINDOW)).
  rewrite (filter_cons (λ t, lo ≤ t < lo + RATE_WINDOW) t h).
  destruct (decide (now - t < RATE_WINDOW)) as [Hk|Hk].
  - rewrite filter_cons, IH. done.
  - rewrite IH. destruct (decide (lo ≤ t < lo + RATE_WINDOW)); [lia|done].
Qed.

Lemma admit_calls_window_count ip lo ts : ∀ rc,
  Forall (λ t, lo ≤ t < lo + RATE_WINDOW) ts →
  let inside := length (filter (λ t, lo ≤ t < lo + RATE_WINDOW)
                               (default [] (rc !! ip))) in
  (length (filter (λ r, r = true) (admit_calls ip ts rc).1) + inside
   ≤ RATE_LIMIT `max` inside)%nat.
Proof.
  induction ts as [|t ts IH]; intros rc Hwin inside.
  - simpl. lia.
  - apply Forall_cons in Hwin as [Ht Hts].
    pose proof (check_rate_limit_history ip t rc) as [Hhist Hres].
    cbv zeta in Hhist, Hres.
    specialize (IH (check_rate_limit ip t rc).2 Hts). cbv zeta in IH.
    rewrite Hhist in IH.
    cbn [admit_calls]. destruct (check_rate_limit ip t rc) as [r rc1].
    cbn [fst snd] in *.
    destruct (admit_calls ip ts rc1) as [rs rc2]. cbn [fst snd] in *.
    set (kept := filter (λ req_time, t - req_time < RATE_WINDOW)
                        (default [] (rc !! ip))) in *.
    assert (Hin : filter (λ t0, lo ≤ t0 < lo + RATE_WINDOW) kept
                  = filter (λ t0, lo ≤ t0 < lo + RATE_WINDOW) (default [] (rc !! ip)))
      by (by apply filter_window_keeps_inside).
    pose proof (length_filter (λ t0, lo ≤ t0 < lo + RATE_WINDOW) kept) as Hle.
    rewrite Hin in Hle. fold inside in Hle.
    destruct r.
    + cbn [from_option id] in IH. rewrite filter_cons_True by done. cbn [length].
      rewrite filter_app, Hin, length_app in IH. fold inside in IH.
      rewrite filter_cons_True in IH by done. cbn [length filter] in IH.
      specialize (Hres eq_refl). rewrite filter_nil in IH. cbn [length] in IH. lia.
    + cbn [from_option id] in IH. rewrite filter_cons_False by done.
      rewrite Hin in IH. by fold inside in IH.
Qed.

End RateLimiterInvariants.

(** X2. Whatever the dictionary holds, of the calls that one client makes with
    clock readings inside one window at most [RATE_LIMIT] are admitted. *)
Theorem admit_calls_at_most_limit (ip : string) (rc : gmap string (list Z))
    (ts : list Z) (lo : Z) :
  Forall (λ t, lo ≤ t < lo + RATE_WINDOW) ts →
  (length (filter (λ r, r = true) (admit_calls ip ts rc).1) ≤ RATE_LIMIT)%nat.
Proof.
  intros Hwin. pose proof (admit_calls_window_count ip lo ts rc Hwin) as H.
  cbv zeta in H. lia.
Qed.

Lemma admit_calls_at_most_limit_witness :
  (length (filter (λ r, r = true)
     (admit_calls "10.0.0.1" (Z.of_nat <$> seq 0 150) {["10.0.0.1" := [-5; -1]%Z]}).1)
   ≤ RATE_LIMIT)%nat.
Proof.
  apply (admit_calls_at_most_limit "10.0.0.1" _ (Z.of_nat <$> seq 0 150) 0).
  apply (bool_decide_unpack _). vm_compute. exact I.
Defined.

(** X3. After a call with the clock reading [now], every timestamp stored for
    the calling client is less than [RATE_WINDOW] before [now]. *)
Theorem check_rate_limit_history_fresh (ip : string) (now : Z)
    (rc : gmap string (list Z)) :
  Forall (λ t, now - t < RATE_WINDOW)
         (default [] ((check_rate_limit ip now rc).2 !! ip)).
Proof.
  pose proof (check_rate_limit_history ip now rc) as [-> _]. cbn [from_option id].
  destruct (check_rate_limit ip now rc).1.
  - apply Forall_app. split; [apply filter_window_fresh|].
    constructor; [|constructor]. unfold RATE_WINDOW. lia.
  - apply filter_window_fresh.
Qed.

(** X4. A call never lets a history grow beyond [RATE_LIMIT] entries: starting
    from the empty dictionary, after any calls by any clients every client
    has at most [RATE_LIMIT] timestamps stored. *)
Theorem serve_calls_history_bounded (calls : list (string * Z)) (ip : string) :
  (length (default [] (serve_calls calls ∅ !! ip)) ≤ RATE_LIMIT)%nat.
Proof.
  assert (Hgen : ∀ rc : gmap string (list Z),
    (∀ k, (length (default [] (rc !! k)) ≤ RATE_LIMIT)%nat) →
    ∀ k, (length (default [] (serve_calls calls rc !! k)) ≤ RATE_LIMIT)%nat).
  { induction calls as [|[ip' now] calls IH]; intros rc Hrc k; [apply Hrc|].
    simpl. apply IH. clear k. intros k.
    destruct (decide (ip' = k)) as [<-|Hne].
    - pose proof (check_rate_limit_history ip' now rc) as [-> Hres].
      cbv zeta in Hres. cbn [from_option id].
      pose proof (length_filter (λ req_time, now - req_time < RATE_WINDOW)
                                (default [] (rc !! ip'))) as Hle.
      specialize (Hrc ip').
      destruct (check_rate_limit ip' now rc).1.
      + specialize (Hres eq_refl). rewrite length_app. cbn [length]. lia.
      + lia.
    - rewrite check_rate_limit_other_key by done. apply Hrc. }
  apply Hgen. intros k. rewrite lookup_empty. cbn [from_option id length]. lia.
Qed.

(** ** More on the Luhn engine *)

Section LuhnAlgebra.

(** The running total only adds up: a loop started at [total] is the loop
    started at 0, shifted by [total]. *)
Lemma luhn_loop_from_zero (parity : nat) (s : pystr) : ∀ i total,
  luhn_loop parity i total s = Z.add total <$> luhn_loop parity i 0 s.
Proof.
  induction s as [|c s IH]; intros i total.
  - cbn. f_equal. lia.
  - cbn [luhn_loop]. destruct (Py.int [c]) as [d|]; [|done].
    cbv zeta. rewrite IH. rewrite (IH _ (0 + _)).
    destruct (luhn_loop parity (S i) 0 s) as [t|]; [|done].
    cbn. f_equal. lia.
Qed.

Lemma digit_val_inj (c c' : ascii) :
  Py.is_digit c = true → Py.is_digit c' = true →
  Py.digit_val c = Py.digit_val c' → c = c'.
Proof.
  unfold Py.digit_val, Py.code. intros _ _ Hv.
  rewrite <- (ascii_nat_embedding c), <- (ascii_nat_embedding c').
  f_equal. lia.
Qed.

(** The loop depends on the index and the parity only through the test
    [i % 2 == parity]. *)
Lemma luhn_loop_same_tests (p p' : nat) (s : pystr) : ∀ i i' total,
  (∀ j, ((i + j) mod 2 =? p)%nat = ((i' + j) mod 2 =? p')%nat) →
  luhn_loop p i total s = luhn_loop p' i' total s.
Proof.
  induction s as [|c s IH]; intros i i' total Hsame; [done|].
  cbn [luhn_loop]. destruct (Py.int [c]) as [d|]; [|done].
  pose proof (Hsame 0%nat) as H0. rewrite !Nat.add_0_r in H0. rewrite H0.
  apply IH. intros j. specialize (Hsame (S j)).
  by rewrite !Nat.add_succ_r in Hsame.
Qed.

Lemma succ_mod2 (k : nat) :
  (S k mod 2 = if k mod 2 =? 0 then 1 else 0)%nat.
Proof.
  replace (S k) with (k + 1)%nat by lia. rewrite Nat.Div0.add_mod.
  pose proof (Nat.mod_upper_bound k 2 ltac:(lia)) as Hk.
  destruct (k mod 2)%nat as [|[|n]]; [reflexivity|reflexivity|lia].
Qed.

Lemma succ_mod2_eqb (j n : nat) :
  (S j mod 2 =? S n mod 2)%nat = (j mod 2 =? n mod 2)%nat.
Proof.
  rewrite !succ_mod2.
  pose proof (Nat.mod_upper_bound j 2 ltac:(lia)) as Hj.
  pose proof (Nat.mod_upper_bound n 2 ltac:(lia)) as Hn.
  destruct (j mod 2)%nat as [|[|?]], (n mod 2)%nat as [|[|?]];
    try reflexivity; lia.
Qed.

End LuhnAlgebra.

(** X5. The Luhn check catches every error in a single digit: when a number
    passes, the number with one digit replaced by another digit fails. *)
Theorem luhn_check_single_digit_error (a b : pystr) (c c' : ascii) :
  Py.is_digit c = true → Py.is_digit c' = true → c ≠ c' →
  luhn_check (a ++ c :: b) = true →
  luhn_check (a ++ c' :: b) = false.
Proof.
  intros Hc Hc' Hne. unfold luhn_check, luhn_try.
  assert (Hlen : length (a ++ c' :: b) = length (a ++ c :: b))
    by (by rewrite !length_app).
  rewrite Hlen. set (p := (length (a ++ c :: b) mod 2)%nat).
  rewrite !luhn_loop_app.
  destruct (luhn_loop p 0 0 a) as [ta|]; [|done].
  cbn [mbind option_bind luhn_loop]. rewrite !int_single, Hc, Hc'. cbv zeta.
  rewrite luhn_loop_from_zero.
  rewrite (luhn_loop_from_zero p b _ (ta + _)).
  destruct (luhn_loop p (S (0 + length a)) 0 b) as [tb|]; [|done].
  cbn [fmap option_fmap option_map].
  pose proof (digit_val_range c Hc) as Hr.
  pose proof (digit_val_range c' Hc') as Hr'.
  assert (Hv : Py.digit_val c ≠ Py.digit_val c')
    by (intros Hv; by apply Hne, digit_val_inj).
  intros Hok%Z.eqb_eq. apply Z.eqb_neq. intros Hbad.
  destruct ((0 + length a) mod 2 =? p)%nat;
    repeat match goal with
           | H : context [if ?x <? ?y then _ else _] |- _ =>
               destruct (Z.ltb_spec x y)
           end;
    apply Z.mod_divide in Hok as [k Hk]; try lia;
    apply Z.mod_divide in Hbad as [k' Hk']; try lia; lia.
Qed.

Lemma luhn_check_single_digit_error_witness :
  luhn_check (lit "4532015112830366") = true
  ∧ luhn_check (lit "4532015112880366") = false.
Proof.
  split; [reflexivity|].
  apply (luhn_check_single_digit_error (lit "45320151128") (lit "0366") "3" "8");
    [reflexivity|reflexivity|discriminate|reflexivity].
Defined.

(** X6. The weights are counted from the right end: a zero put in front of a
    string does not change the answer of the check. *)
Theorem luhn_check_leading_zero (s : pystr) :
  luhn_check ("0"%char :: s) = luhn_check s.
Proof.
  unfold luhn_check, luhn_try. cbn [length luhn_loop].
  rewrite int_single.
  change (Py.is_digit "0") with true. change (Py.digit_val "0") with 0.
  cbv beta iota zeta.
  assert (Hzero : ∀ t : bool,
            0 + (if t then (if 9 <? 0 * 2 then 0 * 2 - 9 else 0 * 2) else 0) = 0)
    by (by intros []).
  rewrite Hzero.
  rewrite (luhn_loop_same_tests (S (length s) mod 2) (length s mod 2) s 1 0 0); [done|].
  intros j. cbn [Nat.add]. apply succ_mod2_eqb.
Qed.

(** ** More on the card string parser *)

Section ParserFacts.

Variable current_year : Z.

(** [split] returns one segment more than there are separators. *)
Lemma split_length (sep : ascii) (s : pystr) :
  length (Py.split sep s) = S (count_occ ascii_dec s sep).
Proof.
  induction s as [|c s IH]; [done|]. cbn [Py.split].
  destruct (Ascii.eqb_spec c sep) as [->|Hne].
  - rewrite count_occ_cons_eq by done. cbn [length]. by rewrite IH.
  - rewrite count_occ_cons_neq by done. rewrite <- IH.
    destruct (Py.split sep s) as [|w ws]; [discriminate IH|done].
Qed.

Lemma digit_not_space (c : ascii) : Py.is_digit c = true → Py.is_space c = false.
Proof. destruct c as [[] [] [] [] [] [] [] []]; cbv; congruence. Qed.

Lemma digit_not_pipe (c : ascii) : Py.is_digit c = true → c ≠ "|"%char.
Proof. intros Hc ->. discriminate Hc. Qed.

Lemma lstrip_numeric (s : pystr) : numeric s → Py.lstrip s = s.
Proof.
  destruct 1 as [|c s Hc _]; [done|]. cbn [Py.lstrip].
  by rewrite digit_not_space.
Qed.

(** Trimming leaves a numeric string alone. *)
Lemma strip_numeric (s : pystr) : numeric s → Py.strip s = s.
Proof.
  intros Hs. unfold Py.strip, Py.rstrip. rewrite (lstrip_numeric s Hs).
  rewrite lstrip_numeric; [apply rev_involutive|].
  unfold numeric in *. apply List.Forall_rev. by apply Forall_forall, Forall_forall.
Qed.

Lemma re_sub_nondigit_id (s : pystr) : numeric s → Py.re_sub_nondigit s = s.
Proof.
  unfold Py.re_sub_nondigit. induction 1 as [|c s Hc _ IH]; [done|].
  cbn [List.filter]. by rewrite Hc, IH.
Qed.

Lemma numeric_no_pipe (s : pystr) : numeric s → "|"%char ∉ s.
Proof.
  induction 1 as [|c s Hc _ IH]; [apply not_elem_of_nil|].
  apply not_elem_of_cons. split; [|done].
  intros Heq. by apply (digit_not_pipe c Hc).
Qed.

Lemma numeric_isdigit (s : pystr) : numeric s → s ≠ [] → Py.isdigit s = true.
Proof.
  intros Hs Hne. destruct s as [|c s]; [done|]. unfold Py.isdigit.
  apply forallb_forall. intros x Hx. unfold Py.isdigit_char.
  by rewrite (proj1 (List.Forall_forall _ _) Hs x Hx).
Qed.

(** The segments of four numeric fields joined by ['|']. *)
Lemma segments_canonical (num mm yyyy cvv : pystr) :
  numeric num → numeric mm → numeric yyyy → numeric cvv →
  segments (num ++ lit "|" ++ mm ++ lit "|" ++ yyyy ++ lit "|" ++ cvv)
  = [num; mm; yyyy; cvv].
Proof.
  intros Hn Hm Hy Hc. unfold segments.
  change (lit "|") with ["|"%char]. cbn [app].
  rewrite (split_app_sep "|" num) by (by apply numeric_no_pipe).
  rewrite (split_app_sep "|" mm) by (by apply numeric_no_pipe).
  rewrite (split_app_sep "|" yyyy) by (by apply numeric_no_pipe).
  rewrite (split_without_sep "|" cvv) by (by apply numeric_no_pipe).
  cbn [map]. by rewrite !strip_numeric.
Qed.

(** A record in canonical form is accepted, and its fields come back as
    they were written. *)
Lemma validate_card_format_canonical (num mm yyyy cvv : pystr) (m y : Z) :
  numeric num → (13 ≤ length num ≤ 19)%nat →
  numeric mm → length mm = 2%nat → Py.int mm = Some m → 1 ≤ m ≤ 12 →
  numeric yyyy → length yyyy = 4%nat → Py.int yyyy = Some y → current_year ≤ y →
  numeric cvv → (3 ≤ length cvv ≤ 4)%nat →
  validate_card_format current_year
    (num ++ lit "|" ++ mm ++ lit "|" ++ yyyy ++ lit "|" ++ cvv)
  = (Some (CardRecord num mm yyyy cvv
             (num ++ lit "|" ++ mm ++ lit "|" ++ yyyy ++ lit "|" ++ cvv)), None).
Proof.
  intros Hn Hnl Hm Hml Hmi Hmr Hy Hyl Hyi Hyr Hc Hcl.
  unfold validate_card_format.
  fold (segments (num ++ lit "|" ++ mm ++ lit "|" ++ yyyy ++ lit "|" ++ cvv)).
  rewrite segments_canonical by done. cbn [length nth].
  rewrite (re_sub_nondigit_id num Hn).
  assert (Hz : Py.zfill 2 mm = mm).
  { unfold Py.zfill. by rewrite Hml. }
  rewrite Hz, Hmi, Hyl. cbn [Nat.eqb]. rewrite Hyi, Hyl. cbn [Nat.eqb negb].
  destruct (Nat.ltb_spec 4 4) as [?|_]; [lia|].
  destruct (Nat.ltb_spec (length num) 13) as [?|_]; [lia|].
  destruct (Nat.ltb_spec 19 (length num)) as [?|_]; [lia|].
  destruct (Z.ltb_spec m 1) as [?|_]; [lia|].
  destruct (Z.ltb_spec 12 m) as [?|_]; [lia|].
  destruct (Z.ltb_spec y current_year) as [?|_]; [lia|].
  destruct (Nat.ltb_spec (length cvv) 3) as [?|_]; [lia|].
  destruct (Nat.ltb_spec 4 (length cvv)) as [?|_]; [lia|].
  rewrite numeric_isdigit; [done|done|]. intros ->. simpl in Hcl. lia.
Qed.

End ParserFacts.

(** X7. The parser answers ["Invalid format"] exactly on the raw strings with
    fewer than three ['|'] characters. *)
Theorem validate_card_format_invalid_format (current_year : Z) (raw : pystr) :
  validate_card_format current_year raw = (None, Some "Invalid format"%string)
  ↔ (count_occ ascii_dec raw "|"%char < 3)%nat.
Proof.
  unfold validate_card_format. rewrite length_map, split_length.
  destruct (Nat.ltb_spec (S (count_occ ascii_dec raw "|"%char)) 4) as [Hlt|Hge].
  - split; [lia|done].
  - split; [|lia]. repeat case_match; discriminate.
Qed.

(** X8. The parser accepts every record in canonical form
    [digits|MM|YYYY|CVV] (13 to 19 digits, a month from 01 to 12, a year of
    four digits not before the clock year, a cvv of three or four digits)
    and returns the four fields as they were written. *)
Theorem validate_card_format_accepts_canonical (current_year : Z)
    (num mm yyyy cvv : pystr) (m y : Z) :
  numeric num → (13 ≤ length num ≤ 19)%nat →
  numeric mm → length mm = 2%nat → Py.int mm = Some m → 1 ≤ m ≤ 12 →
  numeric yyyy → length yyyy = 4%nat → Py.int yyyy = Some y → current_year ≤ y →
  numeric cvv → (3 ≤ length cvv ≤ 4)%nat →
  validate_card_format current_year
    (num ++ lit "|" ++ mm ++ lit "|" ++ yyyy ++ lit "|" ++ cvv)
  = (Some (CardRecord num mm yyyy cvv
             (num ++ lit "|" ++ mm ++ lit "|" ++ yyyy ++ lit "|" ++ cvv)), None).
Proof. apply validate_card_format_canonical. Qed.

Lemma validate_card_format_accepts_canonical_witness :
  validate_card_format 2026
    (lit "4532015112830366" ++ lit "|" ++ lit "09" ++ lit "|" ++ lit "2031"
       ++ lit "|" ++ lit "0420")
  = (Some (CardRecord (lit "4532015112830366") (lit "09") (lit "2031") (lit "0420")
             (lit "4532015112830366|09|2031|0420")), None).
Proof.
  apply (validate_card_format_accepts_canonical 2026 (lit "4532015112830366")
           (lit "09") (lit "2031") (lit "0420") 9 2031).
  - apply (bool_decide_unpack _). vm_compute. exact I.
  - vm_compute. lia.
  - apply (bool_decide_unpack _). vm_compute. exact I.
  - reflexivity.
  - reflexivity.
  - lia.
  - apply (bool_decide_unpack _). vm_compute. exact I.
  - reflexivity.
  - reflexivity.
  - lia.
  - apply (bool_decide_unpack _). vm_compute. exact I.
  - vm_compute. lia.
Defined.

(** X9. The parser reads the number segment through its digits only and the
    other segments after trimming: two raw strings that agree on the digits
    of the number and on the trimmed month, year and cvv segments get the
    same answer, apart from [original]. *)
Theorem validate_card_format_normalised (current_year : Z) (raw raw' : pystr) :
  (4 ≤ length (segments raw))%nat → (4 ≤ length (segments raw'))%nat →
  Py.re_sub_nondigit (nth 0 (segments raw) [])
  = Py.re_sub_nondigit (nth 0 (segments raw') []) →
  nth 1 (segments raw) [] = nth 1 (segments raw') [] →
  nth 2 (segments raw) [] = nth 2 (segments raw') [] →
  nth 3 (segments raw) [] = nth 3 (segments raw') [] →
  validate_card_format current_year raw
  = with_original raw (validate_card_format current_year raw').
Proof.
  intros Hlen Hlen' H0 H1 H2 H3.
  unfold validate_card_format. fold (segments raw) (segments raw').
  destruct (Nat.ltb_spec (length (segments raw)) 4) as [?|_]; [lia|].
  destruct (Nat.ltb_spec (length (segments raw')) 4) as [?|_]; [lia|].
  rewrite H0, H1, H2, H3.
  repeat case_match; reflexivity.
Qed.

Lemma validate_card_format_normalised_witness :
  validate_card_format 2026 (lit "4111-1111 1111.1111 |  7|30 | 123|x")
  = with_original (lit "4111-1111 1111.1111 |  7|30 | 123|x")
      (validate_card_format 2026 (lit "4111111111111111|7|30|123")).
Proof.
  apply (validate_card_format_normalised 2026
           (lit "4111-1111 1111.1111 |  7|30 | 123|x")
           (lit "4111111111111111|7|30|123"));
    solve [vm_compute; lia | vm_compute; reflexivity].
Defined.

(** X10. A year segment of two characters is read as the year 20yy: the answer
    is the one for the raw string with ["20"] written in front of the
    year, apart from [original]. *)
Theorem validate_card_format_two_digit_year (current_year : Z) (raw raw' : pystr) :
  (4 ≤ length (segments raw))%nat → (4 ≤ length (segments raw'))%nat →
  nth 0 (segments raw) [] = nth 0 (segments raw') [] →
  nth 1 (segments raw) [] = nth 1 (segments raw') [] →
  length (nth 2 (segments raw) []) = 2%nat →
  nth 2 (segments raw') [] = lit "20" ++ nth 2 (segments raw) [] →
  nth 3 (segments raw) [] = nth 3 (segments raw') [] →
  validate_card_format current_year raw
  = with_original raw (validate_card_format current_year raw').
Proof.
  intros Hlen Hlen' H0 H1 Hy H2 H3.
  unfold validate_card_format. fold (segments raw) (segments raw').
  destruct (Nat.ltb_spec (length (segments raw)) 4) as [?|_]; [lia|].
  destruct (Nat.ltb_spec (length (segments raw')) 4) as [?|_]; [lia|].
  rewrite <- H0, <- H1, <- H3, H2, Hy.
  assert (Hl : length (lit "20" ++ nth 2 (segments raw) []) = 4%nat)
    by (rewrite length_app, Hy; reflexivity).
  rewrite Hl. cbn [Nat.eqb].
  repeat case_match; reflexivity.
Qed.

Lemma validate_card_format_two_digit_year_witness :
  validate_card_format 2026 (lit "4111111111111111|12|31|123")
  = with_original (lit "4111111111111111|12|31|123")
      (validate_card_format 2026 (lit "4111111111111111|12|2031|123")).
Proof.
  apply (validate_card_format_two_digit_year 2026
           (lit "4111111111111111|12|31|123") (lit "4111111111111111|12|2031|123"));
    solve [vm_compute; lia | vm_compute; reflexivity].
Defined.

(** ** More on the handlers *)

Section HandlerFacts.

Variable current_year : Z.
Implicit Types (rc : gmap string (list Z)) (ip : string).

Lemma classify_original (card_data : pystr) :
  result_original (classify current_year card_data) = card_data.
Proof.
  unfold classify.
  by destruct (validate_card_format current_year card_data) as [[v|] [e|]].
Qed.

Lemma validate_card_response ip now card_data rc :
  (validate_card current_year ip now card_data rc).1
  = if (check_rate_limit ip now rc).1
    then match card_data with
         | [] => RespError 400 "No card data provided"
         | _ => RespResult (classify current_year card_data)
         end
    else rate_limited.
Proof.
  unfold validate_card, classify.
  destruct (check_rate_limit ip now rc) as [[] rc']; [|done].
  cbn [negb fst]. destruct card_data as [|c s]; [done|].
  destruct (validate_card_format_cases current_year (c :: s))
    as [[r ->]|(m & -> & Hm)]; [done|]. by rewrite Hm.
Qed.

Lemma validate_batch_response ip now cards rc :
  (validate_batch current_year ip now cards rc).1
  = if (check_rate_limit ip now rc).1
    then if bool_decide (cards = []) || (100 <? length cards)%nat
         then RespError 400 "Invalid batch size (max 100)"
         else RespResults (map (classify current_year) cards)
    else rate_limited.
Proof.
  unfold validate_batch.
  destruct (check_rate_limit ip now rc) as [[] rc']; [|done].
  cbn [negb fst]. destruct cards as [|c cards]; [done|].
  rewrite bool_decide_eq_false_2 by done. cbn [orb].
  destruct (100 <? length (c :: cards))%nat; [done|].
  by rewrite batch_loop_classify.
Qed.

Lemma generate_cards_store ip now bin_pattern quantity month year cvv rc g :
  (generate_cards current_year ip now bin_pattern quantity month year cvv rc g).2
  = (check_rate_limit ip now rc).2.
Proof.
  unfold generate_cards.
  destruct (check_rate_limit ip now rc) as [[] rc']; [|done]. cbn [negb snd].
  destruct (_ || _); [done|]. destruct (_ || _); [done|].
  by destruct (generate_loop _ _ _ _ _ _ _ _) as [[? ?]|].
Qed.

Lemma generate_cards_rejected ip now bin_pattern quantity month year cvv rc g :
  (check_rate_limit ip now rc).1 = false ↔
  (generate_cards current_year ip now bin_pattern quantity month year cvv rc g).1
  = rate_limited.
Proof.
  unfold generate_cards.
  destruct (check_rate_limit ip now rc) as [[] rc']; [|done]. cbn [negb fst].
  split; [done|].
  destruct (_ || _); [done|]. destruct (_ || _); [done|].
  by destruct (generate_loop _ _ _ _ _ _ _ _) as [[? ?]|].
Qed.

End HandlerFacts.

(** X12. The results of a batch carry the input strings, in order, as their
    [original] fields. *)
Theorem validate_batch_originals (current_year : Z) (ip : string) (now : Z)
    (cards : list pystr) (rc : gmap string (list Z))
    (results : list validation_result) :
  (validate_batch current_year ip now cards rc).1 = RespResults results →
  map result_original results = cards.
Proof.
  rewrite validate_batch_response.
  destruct (check_rate_limit ip now rc).1; [|done].
  destruct (_ || _); [done|]. intros [= <-].
  rewrite map_map. rewrite <- (map_id cards) at 2.
  apply map_ext. intros c. apply classify_original.
Qed.

Lemma validate_batch_originals_witness :
  map result_original
    [ValidationResult live "Valid card" (lit "4532015112830366|12|2030|123");
     ValidationResult unknown "Invalid format" (lit "junk")]
  = [lit "4532015112830366|12|2030|123"; lit "junk"].
Proof.
  apply (validate_batch_originals 2026 "10.0.0.1" 0
           [lit "4532015112830366|12|2030|123"; lit "junk"] ∅).
  reflexivity.
Defined.

(** X13. Each of the three handlers answers with the 429 error exactly when the
    rate limiter rejects the call. *)
Theorem handlers_rate_limited_iff (current_year : Z) (ip : string) (now : Z)
    (card_data : pystr) (cards : list pystr)
    (bin_pattern : pystr) (quantity : Z) (month year cvv : pystr)
    (rc : gmap string (list Z)) (g : rng) :
  ((check_rate_limit ip now rc).1 = false ↔
   (validate_card current_year ip now card_data rc).1 = rate_limited)
  ∧ ((check_rate_limit ip now rc).1 = false ↔
     (validate_batch current_year ip now cards rc).1 = rate_limited)
  ∧ ((check_rate_limit ip now rc).1 = false ↔
     (generate_cards current_year ip now bin_pattern quantity month year cvv rc g).1
     = rate_limited).
Proof.
  split; [|split; [|apply generate_cards_rejected]].
  - rewrite validate_card_response.
    destruct (check_rate_limit ip now rc).1; [|done].
    split; [done|]. by destruct card_data.
  - rewrite validate_batch_response.
    destruct (check_rate_limit ip now rc).1; [|done].
    split; [done|]. by destruct (_ || _).
Qed.

(** X14. A generate request takes its slot from the same history as the
    validation requests, also when it is answered with an error: the
    dictionary it leaves is the one the single call of the rate limiter
    leaves. *)
Theorem generate_cards_one_slot (current_year : Z) (ip : string) (now : Z)
    (bin_pattern : pystr) (quantity : Z) (month year cvv : pystr)
    (rc : gmap string (list Z)) (g : rng) :
  let kept := filter (λ req_time, now - req_time < RATE_WINDOW)
                     (default [] (rc !! ip)) in
  (generate_cards current_year ip now bin_pattern quantity month year cvv rc g).2
  = (check_rate_limit ip now rc).2
  ∧ (generate_cards current_year ip now bin_pattern quantity month year cvv rc g).2
    !! ip
    = Some (if (check_rate_limit ip now rc).1 then kept ++ [now] else kept).
Proof.
  intros kept. rewrite generate_cards_store. split; [done|].
  apply check_rate_limit_history.
Qed.

(** X15. The generator checks the pattern before the quantity: an admitted
    request with a pattern of fewer than six characters gets
    ["Invalid BIN"], and one with a longer pattern and a quantity outside
    1..10000 gets ["Invalid quantity (1-10000)"]. *)
Theorem generate_cards_bad_request (current_year : Z) (ip : string) (now : Z)
    (bin_pattern : pystr) (quantity : Z) (month year cvv : pystr)
    (rc : gmap string (list Z)) (g : rng) :
  (check_rate_limit ip now rc).1 = true →
  ((length bin_pattern < 6)%nat →
     (generate_cards current_year ip now bin_pattern quantity month year cvv rc g).1
     = RespError 400 "Invalid BIN")
  ∧ ((6 ≤ length bin_pattern)%nat → quantity < 1 ∨ 10000 < quantity →
     (generate_cards current_year ip now bin_pattern quantity month year cvv rc g).1
     = RespError 400 "Invalid quantity (1-10000)").
Proof.
  intros Hadm. unfold generate_cards.
  destruct (check_rate_limit ip now rc) as [adm rc']. cbn [fst] in Hadm. subst adm.
  cbn [negb fst]. split.
  - intros Hlen.
    destruct (Nat.eqb_spec (length bin_pattern) 0),
             (Nat.ltb_spec (length bin_pattern) 6); try done; lia.
  - intros Hlen Hq.
    destruct (Nat.eqb_spec (length bin_pattern) 0) as [?|_]; [lia|].
    destruct (Nat.ltb_spec (length bin_pattern) 6) as [?|_]; [lia|].
    cbn [orb]. destruct (Z.ltb_spec quantity 1), (Z.ltb_spec 10000 quantity);
      try done; lia.
Qed.

Lemma generate_cards_bad_request_witness :
  (generate_cards 2026 "10.0.0.1" 0 (lit "45xx") 0 (lit "rnd") (lit "rnd")
     (lit "rnd") ∅ (λ n, Z.of_nat n)).1 = RespError 400 "Invalid BIN"
  ∧ (generate_cards 2026 "10.0.0.1" 0 (lit "4532xx") 10001 (lit "rnd") (lit "rnd")
       (lit "rnd") ∅ (λ n, Z.of_nat n)).1 = RespError 400 "Invalid quantity (1-10000)".
Proof.
  split.
  - apply (generate_cards_bad_request 2026 "10.0.0.1" 0 (lit "45xx") 0);
      [reflexivity|vm_compute; lia].
  - apply (generate_cards_bad_request 2026 "10.0.0.1" 0 (lit "4532xx") 10001);
      [reflexivity|vm_compute; lia|lia].
Defined.

(** X16. The empty card string is a bad request for the single-card handler,
    but one more card of unknown status inside a batch. *)
Theorem validate_empty_card (current_year : Z) (ip : string) (now : Z)
    (rc : gmap string (list Z)) :
  (check_rate_limit ip now rc).1 = true →
  (validate_card current_year ip now [] rc).1
  = RespError 400 "No card data provided"
  ∧ (validate_batch current_year ip now [[]] rc).1
    = RespResults [ValidationResult unknown "Invalid format" []].
Proof.
  intros Hadm. rewrite validate_card_response, validate_batch_response, Hadm.
  split; reflexivity.
Qed.

Lemma validate_empty_card_witness :
  (validate_card 2026 "10.0.0.1" 0 [] ∅).1 = RespError 400 "No card data provided"
  ∧ (validate_batch 2026 "10.0.0.1" 0 [[]] ∅).1
    = RespResults [ValidationResult unknown "Invalid format" []].
Proof. apply (validate_empty_card 2026 "10.0.0.1" 0 ∅). reflexivity. Defined.

(** ** More on the card generator *)

Section GeneratorFacts.

Variable current_year : Z.

Lemma digit_not_x (c : ascii) :
  Py.is_digit c = true → Py.eqb (Py.lower [c]) (lit "x") = false.
Proof. destruct c as [[] [] [] [] [] [] [] []]; vm_compute; congruence. Qed.

Lemma randint_inv (a b : Z) (g g' : rng) (x : Z) :
  a ≤ b → randint a b g = Some (x, g') → a ≤ x ≤ b.
Proof.
  intros Hab Hx. destruct (randint_range a b g Hab) as (x0 & g0 & H0 & Hr).
  rewrite H0 in Hx. by injection Hx as <- _.
Qed.

(** What the first loop leaves: the characters gathered so far, then one
    character per character of the pattern, the same one unless it is an
    [x]. *)
Lemma replace_x_inv (bin_pattern : pystr) : ∀ card_num g out g',
  replace_x bin_pattern card_num g = Some (out, g') →
  length out = (length card_num + length bin_pattern)%nat
  ∧ (∀ i c, card_num !! i = Some c → out !! i = Some c)
  ∧ (∀ i c, bin_pattern !! i = Some c →
            Py.eqb (Py.lower [c]) (lit "x") = false →
            out !! (length card_num + i)%nat = Some c).
Proof.
  induction bin_pattern as [|char rest IH]; intros card_num g out g' H.
  - injection H as <- _. cbn [length]. split; [lia|]. split; [done|].
    intros i c Hi. by rewrite lookup_nil in Hi.
  - change (replace_x (char :: rest) card_num)
      with (if Py.eqb (Py.lower [char]) (lit "x")
            then d ← randint 0 9; replace_x rest (card_num ++ Py.str d)
            else replace_x rest (card_num ++ [char])) in H.
    destruct (Py.eqb (Py.lower [char]) (lit "x")) eqn:Hx.
    + apply bind_Some in H as (d & g1 & Hd & H).
      apply randint_inv in Hd; [|lia].
      destruct (str_digit d Hd) as (c0 & Hc0 & _ & _). rewrite Hc0 in H.
      apply IH in H as (Hlen & Hacc & Hpat).
      rewrite length_app in Hlen, Hpat. cbn [length] in *.
      split; [lia|]. split.
      * intros i c Hi. apply Hacc. by apply lookup_app_l_Some.
      * intros [|i] c Hi Hc.
        -- injection Hi as ->. congruence.
        -- cbn in Hi. specialize (Hpat i c Hi Hc).
           by replace (length card_num + S i)%nat
             with (length card_num + 1 + i)%nat by lia.
    + apply IH in H as (Hlen & Hacc & Hpat).
      rewrite length_app in Hlen, Hpat. cbn [length] in *.
      split; [lia|]. split.
      * intros i c Hi. apply Hacc. by apply lookup_app_l_Some.
      * intros [|i] c Hi Hc.
        -- injection Hi as ->. apply Hacc.
           rewrite Nat.add_0_r. by rewrite list_lookup_middle.
        -- cbn in Hi. specialize (Hpat i c Hi Hc).
           by replace (length card_num + S i)%nat
             with (length card_num + 1 + i)%nat by lia.
Qed.

(** The [while] loop only appends. *)
Lemma fill_loop_inv (fuel : nat) : ∀ card_num g out g',
  fill_loop fuel card_num g = Some (out, g') →
  length out = (length card_num `max` 15)%nat
  ∧ (∀ i c, card_num !! i = Some c → out !! i = Some c).
Proof.
  induction fuel as [|fuel IH]; intros card_num g out g' H; cbn [fill_loop] in H.
  - destruct (Nat.ltb_spec (length card_num) 15) as [?|Hge]; [done|].
    injection H as <- _. split; [lia|done].
  - destruct (Nat.ltb_spec (length card_num) 15) as [Hlt|Hge].
    + apply bind_Some in H as (d & g1 & Hd & H).
      apply randint_inv in Hd; [|lia].
      destruct (str_digit d Hd) as (c0 & Hc0 & _ & _). rewrite Hc0 in H.
      apply IH in H as (Hlen & Hacc). rewrite length_app in Hlen.
      cbn [length] in Hlen. split; [lia|].
      intros i c Hi. apply Hacc. by apply lookup_app_l_Some.
    + injection H as <- _. split; [lia|done].
Qed.

(** The number of an emitted record: its length, and the characters it
    takes over from the pattern. *)
Lemma generate_one_keeps_bin (bin_pattern month year cvv : pystr)
    (g g' : rng) (card : pystr) :
  generate_one current_year bin_pattern month year cvv g = Some (card, g') →
  ∃ num rest,
    card = num ++ lit "|" ++ rest
    ∧ numeric num
    ∧ length num = S (length bin_pattern `max` 15)
    ∧ ∀ i c, bin_pattern !! i = Some c → Py.is_digit c = true →
             num !! i = Some c.
Proof.
  unfold generate_one. intros H.
  apply bind_Some in H as (s1 & g1 & H1 & H).
  apply bind_Some in H as (s2 & g2 & H2 & H).
  apply bind_Some in H as (total & g3 & Htot & H).
  apply bind_Some in H as (fm & g4 & _ & H).
  apply bind_Some in H as (fy & g5 & _ & H).
  apply bind_Some in H as (fc & g6 & _ & H).
  injection H as <- <-.
  apply replace_x_inv in H1 as (Hlen1 & _ & Hpat).
  apply fill_loop_inv in H2 as (Hlen2 & Hkeep).
  unfold lift_exn in Htot.
  destruct (check_digit_loop 0 0 s2) as [t|] eqn:Hloop; [|discriminate].
  injection Htot as -> _.
  destruct (str_digit ((total * 9) mod 10)) as (cd & Hcd & Hdig & _).
  { pose proof (Z.mod_pos_bound (total * 9) 10 ltac:(lia)). lia. }
  exists (s2 ++ Py.str ((total * 9) mod 10)), (fm ++ lit "|" ++ fy ++ lit "|" ++ fc).
  split; [done|]. split; [|split].
  - apply numeric_app; [by eapply check_digit_loop_numeric|].
    rewrite Hcd. by constructor.
  - rewrite length_app, Hcd, Hlen2, Hlen1. cbn [length]. lia.
  - intros i c Hi Hc. apply lookup_app_l_Some, Hkeep.
    apply (Hpat i c Hi). by apply digit_not_x.
Qed.

(** A character that is neither a digit nor an [x] makes the iteration
    raise. *)
Lemma generate_one_raises (bin_pattern month year cvv : pystr) (g : rng) :
  Exists (λ c, pattern_char c = false) bin_pattern →
  generate_one current_year bin_pattern month year cvv g = None.
Proof.
  intros Hbad. unfold generate_one.
  destruct (replace_x_spec bin_pattern [] g) as (s1 & g1 & H1 & _).
  rewrite (bind_eq _ _ _ _ _ H1).
  destruct (fill_loop_spec 15 s1 g1 ltac:(lia)) as (s2 & g2 & H2 & _).
  rewrite (bind_eq _ _ _ _ _ H2).
  apply replace_x_inv in H1 as (_ & _ & Hpat).
  apply fill_loop_inv in H2 as (_ & Hkeep).
  apply Exists_exists in Hbad as (c & Hin & Hc).
  apply list_elem_of_lookup in Hin as [i Hi].
  unfold pattern_char in Hc. apply orb_false_iff in Hc as [Hdig Hx].
  assert (Hs2 : Exists (λ c, Py.is_digit c = false) s2).
  { apply Exists_exists. exists c. split; [|done].
    apply list_elem_of_lookup. exists i. apply Hkeep. by apply (Hpat i c). }
  assert (Hloop : check_digit_loop 0 0 s2 = None).
  { rewrite check_digit_loop_luhn. by apply luhn_loop_non_digit. }
  unfold mbind at 1, Gen_bind, lift_exn. by rewrite Hloop.
Qed.

End GeneratorFacts.

(** X17. In every record that the generator emits, the number has
    [max(len(pattern), 15) + 1] digits and carries each digit of the
    pattern at the position it has in the pattern. *)
Theorem generate_cards_keeps_bin (current_year : Z) (ip : string) (now : Z)
    (bin_pattern : pystr) (quantity : Z) (month year cvv : pystr)
    (rc rc' : gmap string (list Z)) (g : rng) (cards : list pystr) :
  generate_cards current_year ip now bin_pattern quantity month year cvv rc g
  = (RespCards cards, rc') →
  Forall (λ card,
    ∃ num rest,
      card = num ++ lit "|" ++ rest
      ∧ numeric num
      ∧ length num = S (length bin_pattern `max` 15)
      ∧ ∀ i c, bin_pattern !! i = Some c → Py.is_digit c = true →
               num !! i = Some c) cards.
Proof.
  intros H. unfold generate_cards in H.
  destruct (check_rate_limit ip now rc) as [adm rc1].
  destruct (negb adm); [discriminate|].
  destruct (_ || _); [discriminate|].
  destruct (_ || _); [discriminate|].
  destruct (generate_loop _ _ _ _ _ _ _ _) as [[generated g']|] eqn:Hloop;
    [|discriminate].
  injection H as <- _.
  eapply generate_loop_Forall; [|constructor|exact Hloop].
  intros g1 g2 card. apply generate_one_keeps_bin.
Qed.

Lemma generate_cards_keeps_bin_witness :
  Forall (λ card,
    ∃ num rest,
      card = num ++ lit "|" ++ rest
      ∧ numeric num
      ∧ length num = S (length (lit "4532xx") `max` 15)
      ∧ ∀ i c, lit "4532xx" !! i = Some c → Py.is_digit c = true →
               num !! i = Some c)
    [lit "4532307418529630|13|2030|99999"; lit "4532741852963071|13|2030|99999"].
Proof.
  eapply (generate_cards_keeps_bin 2026 "10.0.0.1" 0 (lit "4532xx") 2
            (lit "13") (lit "rnd") (lit "99999") ∅ _ (λ n, Z.of_nat n * 7 + 3)).
  reflexivity.
Defined.

(** X18. A pattern with a character that is neither a digit nor an [x] is not
    rejected as a bad request: the check-digit loop raises on it and the
    request ends in a 500. *)
Theorem generate_cards_ill_formed_pattern (current_year : Z) (ip : string)
    (now : Z) (bin_pattern : pystr) (quantity : Z) (month year cvv : pystr)
    (rc : gmap string (list Z)) (g : rng) :
  (check_rate_limit ip now rc).1 = true →
  (6 ≤ length bin_pattern)%nat →
  1 ≤ quantity ≤ 10000 →
  Exists (λ c, pattern_char c = false) bin_pattern →
  (generate_cards current_year ip now bin_pattern quantity month year cvv rc g).1
  = Resp500.
Proof.
  intros Hadm Hlen Hq Hbad. unfold generate_cards.
  destruct (check_rate_limit ip now rc) as [adm rc1]. cbn [fst] in Hadm. subst adm.
  cbn [negb].
  destruct (Nat.eqb_spec (length bin_pattern) 0) as [?|_]; [lia|].
  destruct (Nat.ltb_spec (length bin_pattern) 6) as [?|_]; [lia|].
  destruct (Z.ltb_spec quantity 1) as [?|_]; [lia|].
  destruct (Z.ltb_spec 10000 quantity) as [?|_]; [lia|].
  cbn [orb].
  destruct (Z.to_nat quantity) as [|n] eqn:Hn; [lia|].
  cbn [generate_loop]. unfold mbind, Gen_bind.
  by rewrite generate_one_raises.
Qed.

Lemma generate_cards_ill_formed_pattern_witness :
  (generate_cards 2026 "10.0.0.1" 0 (lit "4532-12") 1 (lit "rnd") (lit "rnd")
     (lit "rnd") ∅ (λ n, Z.of_nat n)).1 = Resp500.
Proof.
  apply (generate_cards_ill_formed_pattern 2026 "10.0.0.1" 0 (lit "4532-12") 1).
  - reflexivity.
  - vm_compute. lia.
  - lia.
  - apply (bool_decide_unpack _). vm_compute. exact I.
Defined.

(** ** From the generator to the validator *)

Section RoundTrip.

Variable current_year : Z.

(** A property checked on every number of a range. *)
Lemma check_range (chk : Z → bool) (lo hi z : Z) :
  forallb (λ n, chk (lo + Z.of_nat n)) (seq 0 (Z.to_nat (hi - lo + 1))) = true →
  lo ≤ z ≤ hi → chk z = true.
Proof.
  intros Hall Hz. rewrite forallb_forall in Hall.
  specialize (Hall (Z.to_nat (z - lo))).
  replace (lo + Z.of_nat (Z.to_nat (z - lo))) with z in Hall by lia.
  apply Hall, in_seq. lia.
Qed.

(** [str] of a month from 1 to 12, padded: two digits that [int] reads
    back. *)
Lemma month_str (m : Z) :
  1 ≤ m ≤ 12 →
  numeric (Py.zfill 2 (Py.str m)) ∧ length (Py.zfill 2 (Py.str m)) = 2%nat
  ∧ Py.int (Py.zfill 2 (Py.str m)) = Some m.
Proof.
  intros Hm.
  pose proof (check_range
    (λ z, forallb Py.is_digit (Py.zfill 2 (Py.str z))
          && (length (Py.zfill 2 (Py.str z)) =? 2)%nat
          && match Py.int (Py.zfill 2 (Py.str z)) with
             | Some v => v =? z
             | None => false
             end)
    1 12 m ltac:(vm_compute; reflexivity) Hm) as H.
  cbv beta in H. apply andb_true_iff in H as [H H3].
  apply andb_true_iff in H as [H1 H2].
  split; [|split].
  - apply List.Forall_forall. by apply forallb_forall.
  - by apply Nat.eqb_eq.
  - destruct (Py.int _) as [v|]; [|done]. by apply Z.eqb_eq in H3 as ->.
Qed.

(** [str] of a year from 1000 to 9999: four digits that [int] reads
    back. *)
Lemma year_str (y : Z) :
  1000 ≤ y ≤ 9999 →
  numeric (Py.str y) ∧ length (Py.str y) = 4%nat ∧ Py.int (Py.str y) = Some y.
Proof.
  intros Hy.
  pose proof (check_range
    (λ z, forallb Py.is_digit (Py.str z)
          && (length (Py.str z) =? 4)%nat
          && match Py.int (Py.str z) with
             | Some v => v =? z
             | None => false
             end)
    1000 9999 y ltac:(vm_compute; reflexivity) Hy) as H.
  cbv beta in H. apply andb_true_iff in H as [H H3].
  apply andb_true_iff in H as [H1 H2].
  split; [|split].
  - apply List.Forall_forall. by apply forallb_forall.
  - by apply Nat.eqb_eq.
  - destruct (Py.int _) as [v|]; [|done]. by apply Z.eqb_eq in H3 as ->.
Qed.

(** [str] of a cvv from 100 to 999: three digits. *)
Lemma cvv_str (c : Z) :
  100 ≤ c ≤ 999 → numeric (Py.str c) ∧ length (Py.str c) = 3%nat.
Proof.
  intros Hc.
  pose proof (check_range
    (λ z, forallb Py.is_digit (Py.str z) && (length (Py.str z) =? 3)%nat)
    100 999 c ltac:(vm_compute; reflexivity) Hc) as H.
  cbv beta in H. apply andb_true_iff in H as [H1 H2].
  split.
  - apply List.Forall_forall. by apply forallb_forall.
  - by apply Nat.eqb_eq.
Qed.

(** With the three fields drawn at random, one iteration on a well-formed
    pattern emits a number followed by a month from 01 to 12, a year from
    the next seven and a cvv from 100 to 999. *)
Lemma generate_one_random (bin_pattern month year cvv : pystr) (g : rng) :
  Forall (λ c, pattern_char c = true) bin_pattern →
  is_rnd month = true → is_rnd year = true → is_rnd cvv = true →
  ∃ card g' num m y c,
    generate_one current_year bin_pattern month year cvv g = Some (card, g')
    ∧ card = num ++ lit "|" ++ Py.zfill 2 (Py.str m) ++ lit "|" ++ Py.str y
                 ++ lit "|" ++ Py.str c
    ∧ numeric num
    ∧ length num = S (length bin_pattern `max` 15)
    ∧ (Nat.Odd (length bin_pattern `max` 15) → luhn_check num = true)
    ∧ 1 ≤ m ≤ 12
    ∧ current_year + 1 ≤ y ≤ current_year + 7
    ∧ 100 ≤ c ≤ 999.
Proof.
  intros Hpat Hrm Hry Hrc. unfold generate_one.
  destruct (replace_x_spec bin_pattern [] g) as (s1 & g1 & H1 & Hlen1 & Hnum1).
  rewrite (bind_eq _ _ _ _ _ H1).
  destruct (fill_loop_spec 15 s1 g1 ltac:(lia)) as (s2 & g2 & H2 & Hlen2 & Hnum2).
  rewrite (bind_eq _ _ _ _ _ H2).
  assert (Hs2 : numeric s2) by (apply Hnum2, Hnum1; [constructor|done]).
  destruct (luhn_loop_numeric 0 s2 0 0 Hs2) as [total Htotal].
  rewrite <- check_digit_loop_luhn in Htotal.
  assert (Hlift : lift_exn (check_digit_loop 0 0 s2) g2 = Some (total, g2)).
  { unfold lift_exn. by rewrite Htotal. }
  rewrite (bind_eq _ _ _ _ _ Hlift). rewrite Hrm, Hry, Hrc.
  destruct (randint_range 1 12 g2 ltac:(lia)) as (m & g3 & Hm & Hmr).
  assert (Hfm : (randint 1 12 ≫= λ m, mret (Py.zfill 2 (Py.str m))) g2
                = Some (Py.zfill 2 (Py.str m), g3))
    by (by rewrite (bind_eq _ _ _ _ _ Hm)).
  rewrite (bind_eq _ _ _ _ _ Hfm).
  destruct (randint_range (current_year + 1) (current_year + 7) g3 ltac:(lia))
    as (y & g4 & Hy & Hyr).
  assert (Hfy : (randint (current_year + 1) (current_year + 7)
                   ≫= λ y, mret (Py.str y)) g3 = Some (Py.str y, g4))
    by (by rewrite (bind_eq _ _ _ _ _ Hy)).
  rewrite (bind_eq _ _ _ _ _ Hfy).
  destruct (randint_range 100 999 g4 ltac:(lia)) as (c & g5 & Hc & Hcr).
  assert (Hfc : (randint 100 999 ≫= λ c, mret (Py.str c)) g4 = Some (Py.str c, g5))
    by (by rewrite (bind_eq _ _ _ _ _ Hc)).
  rewrite (bind_eq _ _ _ _ _ Hfc).
  destruct (str_digit ((total * 9) mod 10)) as (cd & Hcd & Hdig & _).
  { pose proof (Z.mod_pos_bound (total * 9) 10 ltac:(lia)). lia. }
  assert (Hl2 : length s2 = (length bin_pattern `max` 15)%nat).
  { rewrite Hlen2, Hlen1. cbn [length]. lia. }
  eexists _, g5, (s2 ++ Py.str ((total * 9) mod 10)), m, y, c.
  split; [reflexivity|]. split; [reflexivity|].
  split; [apply numeric_app; [done|]; rewrite Hcd; by constructor|].
  split; [rewrite length_app, Hcd, Hl2; cbn [length]; lia|].
  split; [|done].
  intros Hodd. apply luhn_check_append_check_digit; [by rewrite Hl2|done].
Qed.

End RoundTrip.

(** X19. What the generator emits, the validator accepts. On a well-formed
    pattern of 6 to 18 characters with [max(len(pattern), 15)] odd, with
    month, year and cvv drawn at random and a clock year from 999 to 9992,
    an admitted request returns [quantity] records, and each of them is
    classified as a live card by the validation handlers. *)
Theorem generate_then_validate (current_year : Z) (ip : string) (now : Z)
    (bin_pattern : pystr) (quantity : Z) (month year cvv : pystr)
    (rc : gmap string (list Z)) (g : rng) :
  (check_rate_limit ip now rc).1 = true →
  Forall (λ c, pattern_char c = true) bin_pattern →
  (6 ≤ length bin_pattern ≤ 18)%nat →
  Nat.Odd (length bin_pattern `max` 15) →
  1 ≤ quantity ≤ 10000 →
  is_rnd month = true → is_rnd year = true → is_rnd cvv = true →
  999 ≤ current_year ≤ 9992 →
  ∃ cards,
    (generate_cards current_year ip now bin_pattern quantity month year cvv rc g).1
    = RespCards cards
    ∧ length cards = Z.to_nat quantity
    ∧ Forall (λ card, classify current_year card
                      = ValidationResult live "Valid card" card) cards.
Proof.
  intros Hadm Hpat Hlen Hodd Hq Hrm Hry Hrc Hcy. unfold generate_cards.
  destruct (check_rate_limit ip now rc) as [adm rc1]. cbn [fst] in Hadm. subst adm.
  cbn [negb].
  destruct (Nat.eqb_spec (length bin_pattern) 0) as [?|_]; [lia|].
  destruct (Nat.ltb_spec (length bin_pattern) 6) as [?|_]; [lia|].
  destruct (Z.ltb_spec quantity 1) as [?|_]; [lia|].
  destruct (Z.ltb_spec 10000 quantity) as [?|_]; [lia|].
  cbn [orb].
  edestruct (generate_loop_total current_year
    (λ card, classify current_year card = ValidationResult live "Valid card" card)
    bin_pattern month year cvv) as (cards & g' & -> & Hn & HF).
  { intros g1.
    destruct (generate_one_random current_year bin_pattern month year cvv g1
                Hpat Hrm Hry Hrc)
      as (card & g2 & num & m & y & c & Hone & -> & Hnum & Hnl & Hluhn & Hm & Hy & Hc).
    eexists _, g2. split; [exact Hone|].
    destruct (month_str m Hm) as (Hm1 & Hm2 & Hm3).
    destruct (year_str y ltac:(lia)) as (Hy1 & Hy2 & Hy3).
    destruct (cvv_str c Hc) as (Hc1 & Hc2).
    unfold classify.
    rewrite (validate_card_format_canonical current_year num _ _ _ m y)
      by (done || lia).
    cbn [card_number]. by rewrite (Hluhn Hodd). }
  exists cards. cbn [fst]. split; [done|]. split; [by rewrite Hn|].
  apply HF. constructor.
Qed.

Lemma generate_then_validate_witness :
  ∃ cards,
    (generate_cards 2026 "10.0.0.1" 0 (lit "4532xX") 3 (lit "rnd") (lit "RND")
       (lit "Rnd") ∅ (λ n, Z.of_nat n * 7 + 3)).1 = RespCards cards
    ∧ length cards = Z.to_nat 3
    ∧ Forall (λ card, classify 2026 card
                      = ValidationResult live "Valid card" card) cards.
Proof.
  apply (generate_then_validate 2026 "10.0.0.1" 0 (lit "4532xX") 3).
  - reflexivity.
  - apply (bool_decide_unpack _). vm_compute. exact I.
  - vm_compute. lia.
  - exists 7%nat. reflexivity.
  - lia.
  - reflexivity.
  - reflexivity.
  - reflexivity.
  - lia.
Defined.

(** ** Clients, handlers and fields *)

Section Composition.

Variable current_year : Z.
Implicit Types (rc : gmap string (list Z)) (ip : string).

Lemma validate_card_store ip now card_data rc :
  (validate_card current_year ip now card_data rc).2 = (check_rate_limit ip now rc).2.
Proof.
  unfold validate_card. destruct (check_rate_limit ip now rc) as [[] rc']; [|done].
  cbn [negb snd]. destruct card_data; [done|].
  destruct (validate_card_format _ _) as [v e].
  destruct (truthy e); [done|]. by destruct v.
Qed.

Lemma validate_batch_store ip now cards rc :
  (validate_batch current_year ip now cards rc).2 = (check_rate_limit ip now rc).2.
Proof.
  unfold validate_batch. destruct (check_rate_limit ip now rc) as [[] rc']; [|done].
  cbn [negb snd]. destruct cards; [done|]. destruct (_ <? _)%nat; [done|].
  by destruct (batch_loop _ _ _).
Qed.

(** The fields of an emitted record, for each of the two ways to ask for
    them. *)
Lemma generate_one_fields (bin_pattern month year cvv : pystr)
    (g g' : rng) (card : pystr) :
  generate_one current_year bin_pattern month year cvv g = Some (card, g') →
  ∃ num fm fy fc,
    card = num ++ lit "|" ++ fm ++ lit "|" ++ fy ++ lit "|" ++ fc
    ∧ numeric num
    ∧ (if is_rnd month then ∃ m, 1 ≤ m ≤ 12 ∧ fm = Py.zfill 2 (Py.str m)
       else fm = Py.zfill 2 month)
    ∧ (if is_rnd year
       then ∃ y, current_year + 1 ≤ y ≤ current_year + 7 ∧ fy = Py.str y
       else fy = if (length year =? 4)%nat then year else lit "20" ++ year)
    ∧ (if is_rnd cvv then ∃ c, 100 ≤ c ≤ 999 ∧ fc = Py.str c
       else fc = Py.zfill 3 cvv).
Proof.
  unfold generate_one. intros H.
  apply bind_Some in H as (s1 & g1 & _ & H).
  apply bind_Some in H as (s2 & g2 & _ & H).
  apply bind_Some in H as (total & g3 & Htot & H).
  apply bind_Some in H as (fm & g4 & Hfm & H).
  apply bind_Some in H as (fy & g5 & Hfy & H).
  apply bind_Some in H as (fc & g6 & Hfc & H).
  injection H as <- <-.
  exists (s2 ++ Py.str ((total * 9) mod 10)), fm, fy, fc.
  split; [reflexivity|]. split; [|split; [|split]].
  - unfold lift_exn in Htot.
    destruct (check_digit_loop 0 0 s2) as [t|] eqn:Hloop; [|discriminate].
    apply numeric_app; [by eapply check_digit_loop_numeric|].
    destruct (str_digit ((total * 9) mod 10)) as (c & -> & Hc & _).
    { pose proof (Z.mod_pos_bound (total * 9) 10 ltac:(lia)). lia. }
    by constructor.
  - destruct (is_rnd month).
    + apply bind_Some in Hfm as (m & g7 & Hm & Hret). injection Hret as <- _.
      exists m. split; [by eapply randint_inv; [|exact Hm]; lia|done].
    + by injection Hfm as <- _.
  - destruct (is_rnd year).
    + apply bind_Some in Hfy as (y & g7 & Hy & Hret). injection Hret as <- _.
      exists y. split; [by eapply randint_inv; [|exact Hy]; lia|done].
    + by injection Hfy as <- _.
  - destruct (is_rnd cvv).
    + apply bind_Some in Hfc as (c & g7 & Hc & Hret). injection Hret as <- _.
      exists c. split; [by eapply randint_inv; [|exact Hc]; lia|done].
    + by injection Hfc as <- _.
Qed.

Lemma generate_cards_Forall (P : pystr → Prop) ip now bin_pattern quantity
    month year cvv rc rc' (g : rng) (cards : list pystr) :
  (∀ g g' card, generate_one current_year bin_pattern month year cvv g
                = Some (card, g') → P card) →
  generate_cards current_year ip now bin_pattern quantity month year cvv rc g
  = (RespCards cards, rc') →
  Forall P cards.
Proof.
  intros Hone H. unfold generate_cards in H.
  destruct (check_rate_limit ip now rc) as [adm rc1].
  destruct (negb adm); [discriminate|].
  destruct (_ || _); [discriminate|].
  destruct (_ || _); [discriminate|].
  destruct (generate_loop _ _ _ _ _ _ _ _) as [[generated g']|] eqn:Hloop;
    [|discriminate].
  injection H as <- _.
  eapply generate_loop_Forall; [exact Hone|constructor|exact Hloop].
Qed.

End Composition.

(** X20. A request of one client, to whichever handler, leaves the history of
    every other client as it was. *)
Theorem handlers_other_clients_untouched (current_year : Z) (ip ip' : string)
    (now : Z) (card_data : pystr) (cards : list pystr)
    (bin_pattern : pystr) (quantity : Z) (month year cvv : pystr)
    (rc : gmap string (list Z)) (g : rng) :
  ip ≠ ip' →
  (validate_card current_year ip now card_data rc).2 !! ip' = rc !! ip'
  ∧ (validate_batch current_year ip now cards rc).2 !! ip' = rc !! ip'
  ∧ (generate_cards current_year ip now bin_pattern quantity month year cvv rc g).2
    !! ip' = rc !! ip'.
Proof.
  intros Hne.
  rewrite validate_card_store, validate_batch_store, generate_cards_store.
  by rewrite check_rate_limit_other_key.
Qed.

Lemma handlers_other_clients_untouched_witness :
  let rc : gmap string (list Z) := {["10.0.0.2" := [1; 2]]} in
  (validate_card 2026 "10.0.0.1" 5 (lit "junk") rc).2 !! "10.0.0.2" = rc !! "10.0.0.2"
  ∧ (validate_batch 2026 "10.0.0.1" 5 [lit "junk"] rc).2 !! "10.0.0.2"
    = rc !! "10.0.0.2"
  ∧ (generate_cards 2026 "10.0.0.1" 5 (lit "4532xx") 1 (lit "rnd") (lit "rnd")
       (lit "rnd") rc (λ n, Z.of_nat n)).2 !! "10.0.0.2" = rc !! "10.0.0.2".
Proof.
  intros rc.
  apply (handlers_other_clients_untouched 2026 "10.0.0.1" "10.0.0.2").
  discriminate.
Defined.

(** X21. For an admitted request with a non-empty card string, the single-card
    handler answers with the one result that the batch handler lists for
    the batch holding just that card. *)
Theorem validate_card_agrees_with_batch (current_year : Z) (ip : string)
    (now : Z) (card_data : pystr) (rc : gmap string (list Z)) :
  (check_rate_limit ip now rc).1 = true →
  card_data ≠ [] →
  ∃ r, (validate_card current_year ip now card_data rc).1 = RespResult r
       ∧ (validate_batch current_year ip now [card_data] rc).1 = RespResults [r]
       ∧ result_original r = card_data.
Proof.
  intros Hadm Hne. exists (classify current_year card_data).
  rewrite validate_card_response, validate_batch_response, Hadm.
  split; [by destruct card_data|]. split; [done|]. apply classify_original.
Qed.

Lemma validate_card_agrees_with_batch_witness :
  ∃ r, (validate_card 2026 "10.0.0.1" 0 (lit "4532015112830366|12|30|123") ∅).1
       = RespResult r
       ∧ (validate_batch 2026 "10.0.0.1" 0 [lit "4532015112830366|12|30|123"] ∅).1
         = RespResults [r]
       ∧ result_original r = lit "4532015112830366|12|30|123".
Proof.
  apply (validate_card_agrees_with_batch 2026 "10.0.0.1" 0
           (lit "4532015112830366|12|30|123") ∅); [reflexivity|discriminate].
Defined.

(** X22. A year argument other than ["rnd"] is emitted as it is when it has four
    characters and with ["20"] in front otherwise, whatever it holds. *)
Theorem generate_cards_fixed_year (current_year : Z) (ip : string) (now : Z)
    (bin_pattern : pystr) (quantity : Z) (month year cvv : pystr)
    (rc rc' : gmap string (list Z)) (g : rng) (cards : list pystr) :
  is_rnd year = false →
  generate_cards current_year ip now bin_pattern quantity month year cvv rc g
  = (RespCards cards, rc') →
  Forall (λ card,
    ∃ num fm fc,
      numeric num
      ∧ card = num ++ lit "|" ++ fm ++ lit "|"
               ++ (if (length year =? 4)%nat then year else lit "20" ++ year)
               ++ lit "|" ++ fc) cards.
Proof.
  intros Hy. apply generate_cards_Forall. intros g1 g2 card Hone.
  apply generate_one_fields in Hone as (num & fm & fy & fc & -> & Hnum & _ & Hfy & _).
  rewrite Hy in Hfy. subst fy. by exists num, fm, fc.
Qed.

Lemma generate_cards_fixed_year_witness :
  Forall (λ card,
    ∃ num fm fc,
      numeric num
      ∧ card = num ++ lit "|" ++ fm ++ lit "|"
               ++ (if (length (lit "1999x") =? 4)%nat then lit "1999x"
                   else lit "20" ++ lit "1999x")
               ++ lit "|" ++ fc)
    [lit "4532307418529630|13|201999x|99999"].
Proof.
  eapply (generate_cards_fixed_year 2026 "10.0.0.1" 0 (lit "4532xx") 1
            (lit "13") (lit "1999x") (lit "99999") ∅ _ (λ n, Z.of_nat n * 7 + 3));
    reflexivity.
Defined.

(** X23. With month, year and cvv asked at random, every emitted record holds a
    month of two digits from 01 to 12, a year from the seven years after
    the clock year and a cvv from 100 to 999. *)
Theorem generate_cards_random_fields (current_year : Z) (ip : string) (now : Z)
    (bin_pattern : pystr) (quantity : Z) (month year cvv : pystr)
    (rc rc' : gmap string (list Z)) (g : rng) (cards : list pystr) :
  is_rnd month = true → is_rnd year = true → is_rnd cvv = true →
  generate_cards current_year ip now bin_pattern quantity month year cvv rc g
  = (RespCards cards, rc') →
  Forall (λ card,
    ∃ num fm m y c,
      card = num ++ lit "|" ++ fm ++ lit "|" ++ Py.str y ++ lit "|" ++ Py.str c
      ∧ numeric num
      ∧ numeric fm ∧ length fm = 2%nat ∧ Py.int fm = Some m ∧ 1 ≤ m ≤ 12
      ∧ current_year + 1 ≤ y ≤ current_year + 7
      ∧ 100 ≤ c ≤ 999 ∧ numeric (Py.str c) ∧ length (Py.str c) = 3%nat) cards.
Proof.
  intros Hm Hy Hc. apply generate_cards_Forall. intros g1 g2 card Hone.
  apply generate_one_fields in Hone
    as (num & fm & fy & fc & -> & Hnum & Hfm & Hfy & Hfc).
  rewrite Hm in Hfm. rewrite Hy in Hfy. rewrite Hc in Hfc.
  destruct Hfm as (m & Hmr & ->). destruct Hfy as (y & Hyr & ->).
  destruct Hfc as (c & Hcr & ->).
  destruct (month_str m Hmr) as (Hm1 & Hm2 & Hm3).
  destruct (cvv_str c Hcr) as (Hc1 & Hc2).
  exists num, (Py.zfill 2 (Py.str m)), m, y, c. repeat split; try done; lia.
Qed.

Lemma generate_cards_random_fields_witness :
  Forall (λ card,
    ∃ num fm m y c,
      card = num ++ lit "|" ++ fm ++ lit "|" ++ Py.str y ++ lit "|" ++ Py.str c
      ∧ numeric num
      ∧ numeric fm ∧ length fm = 2%nat ∧ Py.int fm = Some m ∧ 1 ≤ m ≤ 12
      ∧ 2026 + 1 ≤ y ≤ 2026 + 7
      ∧ 100 ≤ c ≤ 999 ∧ numeric (Py.str c) ∧ length (Py.str c) = 3%nat)
    [lit "4532307418529630|09|2030|194"; lit "4532185296307414|11|2030|292"].
Proof.
  eapply (generate_cards_random_fields 2026 "10.0.0.1" 0 (lit "4532xX") 2
            (lit "rnd") (lit "rnd") (lit "rnd") ∅ _ (λ n, Z.of_nat n * 7 + 3));
    reflexivity.
Defined.

(** ** Fixed month and cvv *)

Section FixedFields.

Lemma zfill_zero_padded (width : nat) (s : pystr) :
  Py.zfill width s = zero_padded width s.
Proof.
  unfold Py.zfill, zero_padded.
  destruct (Nat.leb_spec width (length s)) as [Hle|Hlt].
  - replace (width - length s)%nat with 0%nat by lia.
    destruct s as [|c rest]; [done|].
    by destruct (Ascii.eqb c "+" || Ascii.eqb c "-").
  - destruct s as [|c rest]; [by rewrite app_nil_r|].
    by destruct (Ascii.eqb c "+" || Ascii.eqb c "-").
Qed.

Lemma zfill_unchanged (width : nat) (s : pystr) :
  (width ≤ length s)%nat → Py.zfill width s = s.
Proof.
  intros Hle. unfold Py.zfill.
  by destruct (Nat.leb_spec width (length s)) as [_|?]; [|lia].
Qed.

End FixedFields.

(** C10. On a well-formed pattern and a quantity from 1 to 10000, an
    admitted request is answered with [quantity] records whatever the
    month and the cvv hold: nothing about them is checked. In each record
    a month other than ["rnd"] (in any case) appears filled with zeros to
    width 2 and a cvv other than ["rnd"] filled with zeros to width 3, and
    a value that is long enough appears as it was given: ["13"] stays
    ["13"] and ["99999"] stays ["99999"]. *)
Theorem generate_cards_fixed_month_cvv (current_year : Z) (ip : string) (now : Z)
    (bin_pattern : pystr) (quantity : Z) (month year cvv : pystr)
    (rc : gmap string (list Z)) (g : rng) :
  (check_rate_limit ip now rc).1 = true →
  Forall (λ c, pattern_char c = true) bin_pattern →
  (6 ≤ length bin_pattern)%nat →
  1 ≤ quantity ≤ 10000 →
  ∃ cards,
    (generate_cards current_year ip now bin_pattern quantity month year cvv rc g).1
    = RespCards cards
    ∧ length cards = Z.to_nat quantity
    ∧ Forall (λ card,
        ∃ num fm fy fc,
          card = num ++ lit "|" ++ fm ++ lit "|" ++ fy ++ lit "|" ++ fc
          ∧ numeric num
          ∧ (is_rnd month = false →
             fm = zero_padded 2 month ∧ ((2 ≤ length month)%nat → fm = month))
          ∧ (is_rnd cvv = false →
             fc = zero_padded 3 cvv ∧ ((3 ≤ length cvv)%nat → fc = cvv))) cards.
Proof.
  intros Hadm Hpat Hlen Hq. unfold generate_cards.
  destruct (check_rate_limit ip now rc) as [adm rc1]. cbn [fst] in Hadm. subst adm.
  cbn [negb].
  destruct (Nat.eqb_spec (length bin_pattern) 0) as [?|_]; [lia|].
  destruct (Nat.ltb_spec (length bin_pattern) 6) as [?|_]; [lia|].
  destruct (Z.ltb_spec quantity 1) as [?|_]; [lia|].
  destruct (Z.ltb_spec 10000 quantity) as [?|_]; [lia|].
  cbn [orb].
  edestruct (generate_loop_total current_year
    (λ card, ∃ num fm fy fc,
       card = num ++ lit "|" ++ fm ++ lit "|" ++ fy ++ lit "|" ++ fc
       ∧ numeric num
       ∧ (is_rnd month = false →
          fm = zero_padded 2 month ∧ ((2 ≤ length month)%nat → fm = month))
       ∧ (is_rnd cvv = false →
          fc = zero_padded 3 cvv ∧ ((3 ≤ length cvv)%nat → fc = cvv)))
    bin_pattern month year cvv) as (cards & g' & -> & Hn & HF).
  { intros g1.
    destruct (generate_one_luhn current_year bin_pattern month year cvv g1 Hpat)
      as (card & g2 & _ & _ & Hone & _).
    exists card, g2. split; [exact Hone|].
    apply generate_one_fields in Hone
      as (num & fm & fy & fc & -> & Hnum & Hfm & _ & Hfc).
    exists num, fm, fy, fc. split; [done|]. split; [done|]. split.
    - intros Hm. rewrite Hm in Hfm. subst fm.
      split; [apply zfill_zero_padded|apply zfill_unchanged].
    - intros Hc. rewrite Hc in Hfc. subst fc.
      split; [apply zfill_zero_padded|apply zfill_unchanged]. }
  exists cards. cbn [fst]. split; [done|]. split; [by rewrite Hn|].
  apply HF. constructor.
Qed.

Lemma generate_cards_fixed_month_cvv_witness :
  (generate_cards 2026 "10.0.0.1" 0 (lit "4532xx") 1
     (lit "7") (lit "rnd") (lit "-5") ∅ (λ n, Z.of_nat n * 7 + 3)).1
  = RespCards [lit "4532307418529630|07|2030|-05"]
  ∧ ∃ cards,
      (generate_cards 2026 "10.0.0.1" 0 (lit "4532xx") 1
         (lit "7") (lit "rnd") (lit "-5") ∅ (λ n, Z.of_nat n * 7 + 3)).1
      = RespCards cards
      ∧ length cards = Z.to_nat 1
      ∧ Forall (λ card,
          ∃ num fm fy fc,
            card = num ++ lit "|" ++ fm ++ lit "|" ++ fy ++ lit "|" ++ fc
            ∧ numeric num
            ∧ (is_rnd (lit "7") = false →
               fm = zero_padded 2 (lit "7")
               ∧ ((2 ≤ length (lit "7"))%nat → fm = lit "7"))
            ∧ (is_rnd (lit "-5") = false →
               fc = zero_padded 3 (lit "-5")
               ∧ ((3 ≤ length (lit "-5"))%nat → fc = lit "-5"))) cards.
Proof.
  split; [reflexivity|].
  apply (generate_cards_fixed_month_cvv 2026 "10.0.0.1" 0 (lit "4532xx") 1).
  - reflexivity.
  - apply (bool_decide_unpack _). vm_compute. exact I.
  - vm_compute. lia.
  - lia.
Defined.

(** Values outside the range of a month and the length of a cvv are
    emitted as they are given. *)
Example generate_cards_out_of_range_fields :
  (generate_cards 2026 "10.0.0.1" 0 (lit "4532xx") 2
     (lit "13") (lit "rnd") (lit "99999") ∅ (λ n, Z.of_nat n * 7 + 3)).1
  = RespCards [lit "4532307418529630|13|2030|99999";
               lit "4532741852963071|13|2030|99999"]
  ∧ zero_padded 2 (lit "13") = lit "13"
  ∧ zero_padded 3 (lit "99999") = lit "99999"
  ∧ zero_padded 2 (lit "7") = lit "07"
  ∧ zero_padded 3 (lit "5") = lit "005"
  ∧ zero_padded 3 (lit "-5") = lit "-05".
Proof. repeat split. Qed.
